(** * The retrieval-and-grounding pipeline of the CRM question-answering service

    A shallow embedding of the TypeScript sources

      - [src/types/index.ts]            (the data model),
      - [src/connectors/crmConnector.ts] (the record normalizer),
      - [src/services/vectorStore.ts]   (the vector index adapter and retriever),
      - [src/services/rag.ts]           (the answer orchestrator),
      - [src/services/dataIngestion.ts] (the ingestion pipeline),

    followed by the properties of the specification that are settled on it.

    Conventions of the embedding.

    - A JavaScript [number] is an exact rational ([Q]).  Rounding, NaN and the
      infinities of IEEE-754 doubles are outside the model; no modelled path
      divides by zero on the inputs the theorems range over.  An array length
      is a [nat].
    - A JavaScript string is a [string] (a sequence of bytes, UTF-8 for the
      Japanese literals of the sources).
    - An [async] function is a computation in the monad [M]: it runs against a
      [World] (the module-level singleton and the history of calls to the
      external services) and completes normally ([Ok]) or abruptly ([Throw]).
      State changes made before a [throw] persist, as in JavaScript.
    - The external collaborators (ChromaDB, the embedding and generation
      providers, file and HTTP input) are the fields of [Externals]: each
      answers a call from the history of the calls made before it.
    - Locale- and engine-dependent number formatting is the content of
      [Builtins]; [JSON.stringify] follows the ECMAScript algorithm on top
      of it.
    - A CRM record is one of the three typed records of [src/types/index.ts];
      the runtime object behind it holds the declared properties, in
      declaration order. *)

From Stdlib Require Import QArith Qminmax Qround Qabs Lqa Lia.
From stdpp Require Import base option list gmap strings pretty.

Local Open Scope string_scope.
Local Open Scope list_scope.
Set Warnings "-register-all".

(** ** JavaScript runtime conventions *)

(** [number] *)
Abbreviation number := Q (only parsing).

(** The two error classes the sources can raise: [new Error(message)], thrown
    explicitly, and the engine's [TypeError] (a property read on [undefined],
    a call of something that is not a function). *)
Inductive JsError : Type :=
| Error (message : string)
| TypeError (message : string).

(** How an evaluation completes. *)
Inductive outcome (A : Type) : Type :=
| Ok (value : A)
| Throw (e : JsError).
Arguments Ok {A} value.
Arguments Throw {A} e.

(** Synchronous code that may throw: sequencing stops at the first [Throw]. *)
Definition andThen {A B} (o : outcome A) (k : A -> outcome B) : outcome B :=
  match o with Ok a => k a | Throw e => Throw e end.

(** [array.map(f)] with a callback that may throw. *)
Fixpoint mapThrowing {A B} (f : A -> outcome B) (l : list A) : outcome (list B) :=
  match l with
  | [] => Ok []
  | a :: rest =>
      andThen (f a) (fun b => andThen (mapThrowing f rest) (fun bs => Ok (b :: bs)))
  end.

(** JSON-like values: the runtime shape of metadata and of parsed records.
    An object is the list of its own properties in insertion order. *)
Inductive JSValue : Type :=
| JSNull
| JSBool (b : bool)
| JSNumber (n : number)
| JSString (s : string)
| JSArray (items : list JSValue)
| JSObject (props : list (string * JSValue)).

Definition JSObj : Type := list (string * JSValue).

(** Truthiness of an optional string: [undefined] and the empty string are
    falsy. *)
Definition truthyString (s : option string) : bool :=
  match s with
  | Some s => negb (String.eqb s "")
  | None => false
  end.

(** [s || fallback] on an optional string. *)
Definition orElse (s : option string) (fallback : string) : string :=
  match s with
  | Some s => if String.eqb s "" then fallback else s
  | None => fallback
  end.

(** [${s ? `label${s}` : ''}]: a labelled line when the optional string is
    truthy, the empty string otherwise. *)
Definition optionalLine (label : string) (s : option string) : string :=
  match s with
  | Some s => if String.eqb s "" then "" else label +:+ s
  | None => ""
  end.

Definition nl : string := String (Ascii.ascii_of_nat 10) "".

(** [parts.join(sep)]. *)
Definition join (sep : string) (parts : list string) : string :=
  String.concat sep parts.

(** Engine- and locale-dependent built-ins. *)
Record Builtins : Type := {
  (** [String(n)], the coercion of a number inside a template literal *)
  Number_toString : number -> string;
  (** [n.toLocaleString()] *)
  Number_toLocaleString : number -> string;
  (** [n.toFixed(digits)] *)
  Number_toFixed : number -> nat -> string;
}.

(** *** [JSON.stringify(value, null, space)] *)

Definition doubleQuote : string := String (Ascii.ascii_of_nat 34) "".

Definition hexDigit (n : nat) : string :=
  String.substring n 1 "0123456789abcdef".

(** The escape of one code unit inside a JSON string. *)
Definition escapeJSONChar (c : Ascii.ascii) : string :=
  let n := Ascii.nat_of_ascii c in
  if Nat.eqb n 34 then "\" +:+ doubleQuote
  else if Nat.eqb n 92 then "\\"
  else if Nat.eqb n 8 then "\b"
  else if Nat.eqb n 12 then "\f"
  else if Nat.eqb n 10 then "\n"
  else if Nat.eqb n 13 then "\r"
  else if Nat.eqb n 9 then "\t"
  else if Nat.ltb n 32 then "\u00" +:+ hexDigit (n / 16) +:+ hexDigit (n mod 16)
  else String c "".

Fixpoint escapeJSONString (s : string) : string :=
  match s with
  | EmptyString => ""
  | String c rest => escapeJSONChar c +:+ escapeJSONString rest
  end.

(** [QuoteJSONString] *)
Definition quoteJSONString (s : string) : string :=
  doubleQuote +:+ escapeJSONString s +:+ doubleQuote.

(** The closing step of [SerializeJSONObject] and [SerializeJSONArray]:
    [partial] holds the serialized members, [stepback] the indentation outside
    the brackets and [indent] the one inside. *)
Definition wrapJSON (open close gap stepback indent : string) (partial : list string)
  : string :=
  match partial with
  | [] => open +:+ close
  | _ :: _ =>
      if String.eqb gap "" then open +:+ join "," partial +:+ close
      else
        open +:+ nl +:+ indent +:+ join ("," +:+ nl +:+ indent) partial
        +:+ nl +:+ stepback +:+ close
  end.

Section Serialize.
Variable B : Builtins.

(** [SerializeJSONProperty] on a value that holds no [undefined]. *)
Fixpoint serializeJSON (gap indent : string) (value : JSValue) : string :=
  match value with
  | JSNull => "null"
  | JSBool true => "true"
  | JSBool false => "false"
  | JSNumber n => Number_toString B n
  | JSString s => quoteJSONString s
  | JSArray items =>
      wrapJSON "[" "]" gap indent (indent +:+ gap)
               (map (serializeJSON gap (indent +:+ gap)) items)
  | JSObject props =>
      wrapJSON "{" "}" gap indent (indent +:+ gap)
               (map (fun kv =>
                       quoteJSONString (fst kv) +:+ ":"
                       +:+ (if String.eqb gap "" then "" else " ")
                       +:+ serializeJSON gap (indent +:+ gap) (snd kv))
                    props)
  end.

(** [JSON.stringify(value, null, space)] with a numeric [space]: the gap is
    that many blanks, ten at most. *)
Definition JSON_stringify (value : JSValue) (space : nat) : string :=
  serializeJSON (String.concat "" (replicate (Nat.min space 10) " ")) "" value.

End Serialize.

(** ** The data model ([src/types/index.ts]) *)

Module Customer.
Record t : Type := mk {
  customerId : string;
  name : string;
  phone : string;
  email : option string;
  address : option string;
  totalSales : number;
  visitCount : number;
  registeredAt : option string;
  notes : option string;
}.
End Customer.

Inductive QuoteStatus : Type := draft | sent | approved | rejected | expired.

Definition QuoteStatus_toString (s : QuoteStatus) : string :=
  match s with
  | draft => "draft" | sent => "sent" | approved => "approved"
  | rejected => "rejected" | expired => "expired"
  end.

Module QuoteItem.
Record t : Type := mk {
  itemId : string;
  description : string;
  quantity : number;
  unitPrice : number;
  totalPrice : number;
}.
End QuoteItem.

Module Quote.
Record t : Type := mk {
  quoteId : string;
  customerId : string;
  vehicleInfo : string;
  items : list QuoteItem.t;
  totalAmount : number;
  status : QuoteStatus;
  quoteDate : string;
  validUntil : option string;
  notes : option string;
}.
End Quote.

Inductive WorkType : Type := repair | paint | inspection | maintenance | other.

Definition WorkType_toString (w : WorkType) : string :=
  match w with
  | repair => "repair" | paint => "paint" | inspection => "inspection"
  | maintenance => "maintenance" | other => "other"
  end.

Module PartUsed.
Record t : Type := mk {
  partId : string;
  partName : string;
  quantity : number;
  unitPrice : number;
}.
End PartUsed.

Module WorkHistory.
Record t : Type := mk {
  workId : string;
  customerId : string;
  vehicleInfo : string;
  workType : WorkType;
  description : string;
  technician : string;
  workDate : string;
  partsUsed : option (list PartUsed.t);
  laborCost : number;
  partsCost : number;
  totalCost : number;
  rating : option number;
  notes : option string;
}.
End WorkHistory.

(** [type CRMData = Customer | Quote | WorkHistory] *)
Inductive CRMData : Type :=
| ACustomer (c : Customer.t)
| AQuote (q : Quote.t)
| AWorkHistory (w : WorkHistory.t).

Inductive DataSourceType : Type := csv | excel | json | api.

Module DataSource.
Record t : Type := mk {
  type : DataSourceType;
  path : option string;
  apiEndpoint : option string;
  headers : option (list (string * string));
}.
End DataSource.

Module DataIngestionRequest.
Record t : Type := mk {
  source : DataSource.t;
  dataType : string;
}.
End DataIngestionRequest.

Module RAGQuery.
Record Options : Type := mkOptions {
  topK : option number;
  minScore : option number;
}.
Record t : Type := mk {
  query : string;
  options : option Options;
}.
End RAGQuery.

(** The role of a conversation turn. *)
Inductive Role : Type := user | assistant.

Module ConversationMessage.
Record t : Type := mk {
  role : Role;
  content : string;
}.
End ConversationMessage.

(** [interface ConversationalRAGQuery extends RAGQuery] *)
Module ConversationalRAGQuery.
Record t : Type := mk {
  query : string;
  options : option RAGQuery.Options;
  history : list ConversationMessage.t;
}.
End ConversationalRAGQuery.

Module SearchSource.
Record t : Type := mk {
  content : string;
  metadata : JSObj;
  score : number;
}.
End SearchSource.

Module RAGResponse.
Record t : Type := mk {
  answer : string;
  sources : list SearchSource.t;
  confidence : number;
}.
End RAGResponse.

Module VectorDocument.
Record t : Type := mk {
  id : string;
  content : string;
  metadata : JSObj;
  embedding : option (list number);
}.
End VectorDocument.

Module VectorSearchOptions.
Record t : Type := mk {
  topK : option number;
  filter : option JSObj;
}.
End VectorSearchOptions.

Module VectorSearchResult.
Record t : Type := mk {
  document : VectorDocument.t;
  score : number;
  distance : option number;
}.
End VectorSearchResult.

(** ** The external services *)

(** The handle [client.getOrCreateCollection] returns. *)
Record Collection : Type := { collection_name : string }.

(** The argument of [collection.add]. *)
Module AddParams.
Record t : Type := mk {
  ids : list string;
  documents : list string;
  metadatas : list JSObj;
  embeddings : list (list number);
}.
End AddParams.

(** The argument of [collection.query]. *)
Module QueryParams.
Record t : Type := mk {
  queryEmbeddings : list (list number);
  nResults : number;
  where_ : option JSObj;
}.
End QueryParams.

(** What [collection.query] answers: one row per query embedding.  The
    optional columns may be missing, and an entry of [documents] or
    [metadatas] may be [null]. *)
Module QueryResponse.
Record t : Type := mk {
  ids : list (list string);
  documents : option (list (list (option string)));
  metadatas : option (list (list (option JSObj)));
  distances : option (list (list number));
}.
End QueryResponse.

(** A content block of a generation response. *)
Inductive ContentBlock : Type :=
| TextBlock (text : string)
| ToolUseBlock (id name : string) (input : JSValue).

Module Message.
Record t : Type := mk { content : list ContentBlock }.
End Message.

Module MessageParam.
Record t : Type := mk { role : Role; content : string }.
End MessageParam.

Module MessageCreateParams.
Record t : Type := mk {
  model : string;
  max_tokens : number;
  system : string;
  messages : list MessageParam.t;
}.
End MessageCreateParams.

(** A call to an external service, as recorded in the history. *)
Inductive Call : Type :=
| GetOrCreateCollection (name : string)
| EmbeddingsCreate (input : string)
| CollectionAdd (c : Collection) (p : AddParams.t)
| CollectionQuery (c : Collection) (p : QueryParams.t)
| MessagesCreate (p : MessageCreateParams.t)
| ReadJSON (path : string)
| ReadCSV (path : string)
| FetchFromAPI (apiEndpoint : string) (headers : option (list (string * string))).

(** The collaborators outside the core.  Each answers from the history of
    the calls made so far, so the same request may succeed once and fail
    later. *)
Record Externals : Type := {
  (** [env.COLLECTION_NAME] *)
  COLLECTION_NAME : string;
  chroma_getOrCreateCollection : list Call -> string -> outcome Collection;
  (** the [data] array of [openai.embeddings.create], one embedding each *)
  openai_embeddings_create : list Call -> string -> outcome (list (list number));
  collection_add : list Call -> Collection -> AddParams.t -> outcome unit;
  collection_query : list Call -> Collection -> QueryParams.t -> outcome QueryResponse.t;
  anthropic_messages_create : list Call -> MessageCreateParams.t -> outcome Message.t;
  (** [readJSON], [readCSV] and [fetchFromAPI] of the connector: file and
      network input, already parsed into records *)
  connector_readJSON : list Call -> string -> outcome (list CRMData);
  connector_readCSV : list Call -> string -> outcome (list CRMData);
  connector_fetchFromAPI :
    list Call -> string -> option (list (string * string)) -> outcome (list CRMData);
}.

(** ** Asynchronous computations *)

(** The state of a [VectorStore] object: its [collection] field. *)
Module VectorStoreState.
Record t : Type := mk { collection : option Collection }.
End VectorStoreState.

(** What a computation runs against: the module-level singleton
    [vectorStoreInstance] and the calls made so far, oldest first. *)
Record World : Type := {
  vectorStoreInstance : option VectorStoreState.t;
  calls : list Call;
}.

Definition M (A : Type) : Type := World -> outcome A * World.

#[global] Instance M_ret : MRet M := fun A a w => (Ok a, w).

#[global] Instance M_bind : MBind M := fun A B k m w =>
  match m w with
  | (Ok a, w') => k a w'
  | (Throw e, w') => (Throw e, w')
  end.

(** [throw e] *)
Definition throw {A} (e : JsError) : M A := fun w => (Throw e, w).

(** [try { body } catch (error) { handler }] *)
Definition tryCatch {A} (body : M A) (handler : JsError -> M A) : M A := fun w =>
  match body w with
  | (Ok a, w') => (Ok a, w')
  | (Throw e, w') => handler e w'
  end.

(** Synchronous code run inside an asynchronous function. *)
Definition liftOutcome {A} (o : outcome A) : M A := fun w => (o, w).

(** [await service(...)]: the service answers from the history, and the call
    joins the history. *)
Definition await {A} (c : Call) (answer : list Call -> outcome A) : M A := fun w =>
  (answer (calls w),
   {| vectorStoreInstance := vectorStoreInstance w; calls := calls w ++ [c] |}).

Definition readInstance : M (option VectorStoreState.t) := fun w =>
  (Ok (vectorStoreInstance w), w).

Definition writeInstance (vs : VectorStoreState.t) : M unit := fun w =>
  (Ok tt, {| vectorStoreInstance := Some vs; calls := calls w |}).

(** [await Promise.all(promises)] over promises created in list order: every
    one of them is started, and the whole rejects when one of them does. *)
Fixpoint Promise_all {A} (promises : list (M A)) : M (list A) := fun w =>
  match promises with
  | [] => (Ok [], w)
  | p :: rest =>
      let '(r, w1) := p w in
      let '(rs, w2) := Promise_all rest w1 in
      (match r, rs with
       | Throw e, _ => Throw e
       | Ok _, Throw e => Throw e
       | Ok a, Ok l => Ok (a :: l)
       end, w2)
  end.

(** What the engine raises on a property read or a method call on
    [undefined]. *)
Definition undefinedRead (property : string) : JsError :=
  TypeError ("Cannot read properties of undefined (reading '" +:+ property +:+ "')").

(** ** The record normalizer ([src/connectors/crmConnector.ts]) *)

(** The runtime object behind a typed record: its own properties in
    declaration order, an absent optional property left out. *)
Definition optionalProp {A} (key : string) (inj : A -> JSValue) (v : option A)
  : JSObj :=
  match v with
  | Some a => [(key, inj a)]
  | None => []
  end.

Definition QuoteItem_toObject (i : QuoteItem.t) : JSObj :=
  [ ("itemId", JSString (QuoteItem.itemId i));
    ("description", JSString (QuoteItem.description i));
    ("quantity", JSNumber (QuoteItem.quantity i));
    ("unitPrice", JSNumber (QuoteItem.unitPrice i));
    ("totalPrice", JSNumber (QuoteItem.totalPrice i)) ].

Definition PartUsed_toObject (p : PartUsed.t) : JSObj :=
  [ ("partId", JSString (PartUsed.partId p));
    ("partName", JSString (PartUsed.partName p));
    ("quantity", JSNumber (PartUsed.quantity p));
    ("unitPrice", JSNumber (PartUsed.unitPrice p)) ].

Definition Customer_toObject (c : Customer.t) : JSObj :=
  [ ("customerId", JSString (Customer.customerId c));
    ("name", JSString (Customer.name c));
    ("phone", JSString (Customer.phone c)) ]
  ++ optionalProp "email" JSString (Customer.email c)
  ++ optionalProp "address" JSString (Customer.address c)
  ++ [ ("totalSales", JSNumber (Customer.totalSales c));
       ("visitCount", JSNumber (Customer.visitCount c)) ]
  ++ optionalProp "registeredAt" JSString (Customer.registeredAt c)
  ++ optionalProp "notes" JSString (Customer.notes c).

Definition Quote_toObject (q : Quote.t) : JSObj :=
  [ ("quoteId", JSString (Quote.quoteId q));
    ("customerId", JSString (Quote.customerId q));
    ("vehicleInfo", JSString (Quote.vehicleInfo q));
    ("items", JSArray (map (fun i => JSObject (QuoteItem_toObject i)) (Quote.items q)));
    ("totalAmount", JSNumber (Quote.totalAmount q));
    ("status", JSString (QuoteStatus_toString (Quote.status q)));
    ("quoteDate", JSString (Quote.quoteDate q)) ]
  ++ optionalProp "validUntil" JSString (Quote.validUntil q)
  ++ optionalProp "notes" JSString (Quote.notes q).

Definition WorkHistory_toObject (w : WorkHistory.t) : JSObj :=
  [ ("workId", JSString (WorkHistory.workId w));
    ("customerId", JSString (WorkHistory.customerId w));
    ("vehicleInfo", JSString (WorkHistory.vehicleInfo w));
    ("workType", JSString (WorkType_toString (WorkHistory.workType w)));
    ("description", JSString (WorkHistory.description w));
    ("technician", JSString (WorkHistory.technician w));
    ("workDate", JSString (WorkHistory.workDate w)) ]
  ++ optionalProp "partsUsed"
       (fun ps => JSArray (map (fun p => JSObject (PartUsed_toObject p)) ps))
       (WorkHistory.partsUsed w)
  ++ [ ("laborCost", JSNumber (WorkHistory.laborCost w));
       ("partsCost", JSNumber (WorkHistory.partsCost w));
       ("totalCost", JSNumber (WorkHistory.totalCost w)) ]
  ++ optionalProp "rating" JSNumber (WorkHistory.rating w)
  ++ optionalProp "notes" JSString (WorkHistory.notes w).

Definition CRMData_toObject (data : CRMData) : JSObj :=
  match data with
  | ACustomer c => Customer_toObject c
  | AQuote q => Quote_toObject q
  | AWorkHistory w => WorkHistory_toObject w
  end.

Module CRMConnector.
Section WithBuiltins.
Variable B : Builtins.

(** The [customer] template of [convertToText], line by line. *)
Definition customerLines (customer : Customer.t) : list string :=
  [ "顧客情報";
    "顧客ID: " +:+ Customer.customerId customer;
    "顧客名: " +:+ Customer.name customer;
    "電話番号: " +:+ Customer.phone customer;
    "メールアドレス: " +:+ orElse (Customer.email customer) "なし";
    "住所: " +:+ orElse (Customer.address customer) "なし";
    "累計売上: " +:+ Number_toLocaleString B (Customer.totalSales customer) +:+ "円";
    "来店回数: " +:+ Number_toString B (Customer.visitCount customer) +:+ "回";
    optionalLine "メモ: " (Customer.notes customer) ].

(** The template literal: its lines joined by the newlines between them. *)
Definition customerText (customer : Customer.t) : string :=
  join nl (customerLines customer).

(** The [quote] template, line by line. *)
Definition quoteLines (quote : Quote.t) : list string :=
  let itemsText :=
    join nl
      (map (fun item =>
              "  - " +:+ QuoteItem.description item +:+ ": "
              +:+ Number_toLocaleString B (QuoteItem.totalPrice item) +:+ "円")
           (Quote.items quote)) in
  [ "見積情報";
    "見積ID: " +:+ Quote.quoteId quote;
    "顧客ID: " +:+ Quote.customerId quote;
    "車両情報: " +:+ Quote.vehicleInfo quote;
    "見積明細:";
    itemsText;
    "合計金額: " +:+ Number_toLocaleString B (Quote.totalAmount quote) +:+ "円";
    "ステータス: " +:+ QuoteStatus_toString (Quote.status quote);
    "見積日: " +:+ Quote.quoteDate quote;
    optionalLine "メモ: " (Quote.notes quote) ].

Definition quoteText (quote : Quote.t) : string :=
  join nl (quoteLines quote).

(** The [work_history] template, line by line. *)
Definition workHistoryLines (work : WorkHistory.t) : list string :=
  let partsText :=
    match WorkHistory.partsUsed work with
    | Some parts =>
        join nl
          (map (fun part =>
                  "  - " +:+ PartUsed.partName part +:+ ": "
                  +:+ Number_toLocaleString B (PartUsed.unitPrice part) +:+ "円")
               parts)
    | None => ""
    end in
  [ "作業履歴";
    "作業ID: " +:+ WorkHistory.workId work;
    "顧客ID: " +:+ WorkHistory.customerId work;
    "車両情報: " +:+ WorkHistory.vehicleInfo work;
    "作業種別: " +:+ WorkType_toString (WorkHistory.workType work);
    "作業内容: " +:+ WorkHistory.description work;
    "担当技術者: " +:+ WorkHistory.technician work;
    "作業日: " +:+ WorkHistory.workDate work;
    if negb (String.eqb partsText "")
    then "使用部品:" +:+ nl +:+ partsText
    else "";
    "工賃: " +:+ Number_toLocaleString B (WorkHistory.laborCost work) +:+ "円";
    "部品代: " +:+ Number_toLocaleString B (WorkHistory.partsCost work) +:+ "円";
    "合計費用: " +:+ Number_toLocaleString B (WorkHistory.totalCost work) +:+ "円";
    match WorkHistory.rating work with
    | Some r =>
        if Qeq_bool r 0 then "" else "評価: " +:+ Number_toString B r +:+ "つ星"
    | None => ""
    end;
    optionalLine "メモ: " (WorkHistory.notes work) ].

Definition workHistoryText (work : WorkHistory.t) : string :=
  join nl (workHistoryLines work).

(** [convertToText(data, dataType)].  When [data as T] is a record of
    another variant the template calls a method on a property that variant
    lacks ([totalSales.toLocaleString()], [items.map],
    [laborCost.toLocaleString()]) and the engine raises. *)
Definition convertToText (data : CRMData) (dataType : string) : outcome string :=
  if String.eqb dataType "customer" then
    match data with
    | ACustomer customer => Ok (customerText customer)
    | AQuote _ | AWorkHistory _ => Throw (undefinedRead "toLocaleString")
    end
  else if String.eqb dataType "quote" then
    match data with
    | AQuote quote => Ok (quoteText quote)
    | ACustomer _ | AWorkHistory _ => Throw (undefinedRead "map")
    end
  else if String.eqb dataType "work_history" then
    match data with
    | AWorkHistory work => Ok (workHistoryText work)
    | ACustomer _ | AQuote _ => Throw (undefinedRead "toLocaleString")
    end
  else
    Ok (JSON_stringify B (JSObject (CRMData_toObject data)) 2).

End WithBuiltins.

(** *** The CSV reader: the parsing steps of [readCSV] *)

(** The code points [String.prototype.trim] strips (the WhiteSpace and
    LineTerminator productions), each as its UTF-8 bytes. *)
Definition whiteSpace : list (list nat) :=
  [ [9]; [10]; [11]; [12]; [13]; [32];
    [194; 160];
    [225; 154; 128];
    [226; 128; 128]; [226; 128; 129]; [226; 128; 130]; [226; 128; 131];
    [226; 128; 132]; [226; 128; 133]; [226; 128; 134]; [226; 128; 135];
    [226; 128; 136]; [226; 128; 137]; [226; 128; 138];
    [226; 128; 168]; [226; 128; 169]; [226; 128; 175];
    [226; 129; 159];
    [227; 128; 128];
    [239; 187; 191] ].

(** [l] without the leading [token], when it starts with it. *)
Fixpoint stripToken (token l : list Ascii.ascii) : option (list Ascii.ascii) :=
  match token, l with
  | [], _ => Some l
  | _ :: _, [] => None
  | t :: token', c :: l' => if Ascii.eqb t c then stripToken token' l' else None
  end.

(** [l] without its first code point, when that is one of [tokens]. *)
Fixpoint stripAny (tokens : list (list Ascii.ascii)) (l : list Ascii.ascii)
  : option (list Ascii.ascii) :=
  match tokens with
  | [] => None
  | token :: others =>
      match stripToken token l with
      | Some rest => Some rest
      | None => stripAny others l
      end
  end.

(** Strips leading code points of [tokens]; [fuel] bounds the number of
    code points stripped, and the length of [l] is always enough. *)
Fixpoint dropLeading (tokens : list (list Ascii.ascii)) (fuel : nat)
    (l : list Ascii.ascii) : list Ascii.ascii :=
  match fuel with
  | O => l
  | S fuel' =>
      match stripAny tokens l with
      | Some rest => dropLeading tokens fuel' rest
      | None => l
      end
  end.

(** [text.trim()]: white space is stripped from the start, then from the end
    (on the reversed bytes, against the reversed code points). *)
Definition JS_trim (text : string) : string :=
  let tokens := map (map Ascii.ascii_of_nat) whiteSpace in
  let l := String.list_ascii_of_string text in
  let fromStart := dropLeading tokens (length l) l in
  let reversed := rev fromStart in
  String.string_of_list_ascii
    (rev (dropLeading (map (@rev Ascii.ascii) tokens) (length reversed) reversed)).

(** [text.split(sep)] for a separator of one character. *)
Fixpoint split (sep : Ascii.ascii) (text : string) : list string :=
  match text with
  | EmptyString => [""]
  | String c rest =>
      if Ascii.eqb c sep then "" :: split sep rest
      else
        match split sep rest with
        | cell :: others => String c cell :: others
        | [] => [String c ""]
        end
  end.

Definition comma : Ascii.ascii := Ascii.ascii_of_nat 44.
Definition newline : Ascii.ascii := Ascii.ascii_of_nat 10.

(** A parsed row: an object whose values are strings or [undefined]
    ([None]). *)
Abbreviation CSVRecord := (gmap string (option string)) (only parsing).

(** [obj[key] = value] for a string or [undefined] value: the key becomes an
    own property, except [__proto__], whose setter ignores such a value. *)
Definition setProperty (obj : CSVRecord) (key : string) (value : option string)
  : CSVRecord :=
  if String.eqb key "__proto__" then obj else <[key := value]> obj.

(** [headers.forEach((header, index) => { obj[header] = values[index]; })],
    from position [index] on. *)
Fixpoint fillRecord (values : list string) (obj : CSVRecord) (index : nat)
    (headers : list string) : CSVRecord :=
  match headers with
  | [] => obj
  | header :: rest =>
      fillRecord values (setProperty obj header (values !! index)) (S index) rest
  end.

(** The parsing steps of [readCSV], from the content of the file. *)
Definition parseCSV (content : string) : list CSVRecord :=
  let lines := split newline (JS_trim content) in
  match lines with
  | [] => []
  | headerLine :: dataLines =>
      let headers := map JS_trim (split comma headerLine) in
      map (fun line =>
             let values := map JS_trim (split comma line) in
             fillRecord values ∅ 0 headers)
          dataLines
  end.

Section WithExternals.
Variable E : Externals.

(** [loadData(source)] *)
Definition loadData (source : DataSource.t) : M (list CRMData) :=
  match DataSource.type source with
  | json =>
      if negb (truthyString (DataSource.path source))
      then throw (Error "JSONソースにはpathが必要です")
      else
        let path := orElse (DataSource.path source) "" in
        await (ReadJSON path) (fun h => connector_readJSON E h path)
  | csv =>
      if negb (truthyString (DataSource.path source))
      then throw (Error "CSVソースにはpathが必要です")
      else
        let path := orElse (DataSource.path source) "" in
        await (ReadCSV path) (fun h => connector_readCSV E h path)
  | excel =>
      if negb (truthyString (DataSource.path source))
      then throw (Error "Excelソースにはpathが必要です")
      else throw (Error "Excel読み込みは未実装です")
  | api =>
      if negb (truthyString (DataSource.apiEndpoint source))
      then throw (Error "APIソースにはapiEndpointが必要です")
      else
        let apiEndpoint := orElse (DataSource.apiEndpoint source) "" in
        await (FetchFromAPI apiEndpoint (DataSource.headers source))
              (fun h => connector_fetchFromAPI E h apiEndpoint (DataSource.headers source))
  end.

End WithExternals.
End CRMConnector.

(** ** The vector index adapter ([src/services/vectorStore.ts]) *)

Module VectorStore.

Definition t : Type := VectorStoreState.t.

(** [new VectorStore()]: [collection] starts as [null]. *)
Definition new : t := {| VectorStoreState.collection := None |}.

Definition notInitialized : JsError :=
  Error "コレクションが初期化されていません。initialize()を先に呼び出してください。".

(** The conversion of a raw distance inside [search]:
    [distance !== undefined ? 1 / (1 + distance) : 0]. *)
Definition distanceToScore (distance : option number) : number :=
  match distance with
  | Some d => (1 / (1 + d))%Q
  | None => 0%Q
  end.

(** The result-shaping loop of [search]: one result per entry of
    [results.ids[0]], nothing when [results.ids[0]] is missing. *)
Definition formatResults (results : QueryResponse.t) : list VectorSearchResult.t :=
  match QueryResponse.ids results with
  | ids0 :: _ =>
      imap (fun i id =>
              let content :=
                orElse (d ← QueryResponse.documents results;
                        row ← d !! 0%nat; entry ← row !! i; entry) "" in
              let metadata :=
                default [] (m ← QueryResponse.metadatas results;
                            row ← m !! 0%nat; entry ← row !! i; entry) in
              let distance :=
                d ← QueryResponse.distances results; row ← d !! 0%nat; row !! i in
              let score := distanceToScore distance in
              {| VectorSearchResult.document :=
                   {| VectorDocument.id := id;
                      VectorDocument.content := content;
                      VectorDocument.metadata := metadata;
                      VectorDocument.embedding := None |};
                 VectorSearchResult.score := score;
                 VectorSearchResult.distance := distance |})
           ids0
  | [] => []
  end.

Section WithExternals.
Variable E : Externals.

(** [initialize()]: returns the object with its [collection] set. *)
Definition initialize (self : t) : M t :=
  tryCatch
    (coll ← await (GetOrCreateCollection (COLLECTION_NAME E))
                  (fun h => chroma_getOrCreateCollection E h (COLLECTION_NAME E));
     mret {| VectorStoreState.collection := Some coll |})
    (fun _ => throw (Error "ChromaDBコレクションの初期化に失敗しました")).

(** [generateEmbedding(text)] *)
Definition generateEmbedding (text : string) : M (list number) :=
  tryCatch
    (data ← await (EmbeddingsCreate text) (fun h => openai_embeddings_create E h text);
     match data with
     | embedding :: _ => mret embedding
     | [] => throw (undefinedRead "embedding")
     end)
    (fun _ => throw (Error "エンベディングの生成に失敗しました")).

(** [addDocument(document)] *)
Definition addDocument (self : t) (document : VectorDocument.t) : M unit :=
  match VectorStoreState.collection self with
  | None => throw notInitialized
  | Some coll =>
      tryCatch
        (embedding ← generateEmbedding (VectorDocument.content document);
         let params :=
           {| AddParams.ids := [VectorDocument.id document];
              AddParams.documents := [VectorDocument.content document];
              AddParams.metadatas := [VectorDocument.metadata document];
              AddParams.embeddings := [embedding] |} in
         await (CollectionAdd coll params) (fun h => collection_add E h coll params))
        (fun _ =>
           throw (Error ("ドキュメント追加に失敗しました: " +:+ VectorDocument.id document)))
  end.

(** [addDocuments(documents)] *)
Definition addDocuments (self : t) (documents : list VectorDocument.t) : M unit :=
  match VectorStoreState.collection self with
  | None => throw notInitialized
  | Some coll =>
      if Nat.eqb (length documents) 0 then mret tt
      else
        tryCatch
          (embeddings ←
             Promise_all
               (map (fun doc => generateEmbedding (VectorDocument.content doc)) documents);
           let params :=
             {| AddParams.ids := map VectorDocument.id documents;
                AddParams.documents := map VectorDocument.content documents;
                AddParams.metadatas := map VectorDocument.metadata documents;
                AddParams.embeddings := embeddings |} in
           await (CollectionAdd coll params) (fun h => collection_add E h coll params))
          (fun _ => throw (Error "ドキュメントの一括追加に失敗しました"))
  end.

(** [search(query, options)] *)
Definition search (self : t) (query : string) (options : VectorSearchOptions.t)
  : M (list VectorSearchResult.t) :=
  match VectorStoreState.collection self with
  | None => throw notInitialized
  | Some coll =>
      let topK := default 5%Q (VectorSearchOptions.topK options) in
      let filter := VectorSearchOptions.filter options in
      tryCatch
        (queryEmbedding ← generateEmbedding query;
         let params :=
           {| QueryParams.queryEmbeddings := [queryEmbedding];
              QueryParams.nResults := topK;
              QueryParams.where_ := filter |} in
         results ← await (CollectionQuery coll params)
                         (fun h => collection_query E h coll params);
         mret (formatResults results))
        (fun _ => throw (Error "ベクトル検索に失敗しました"))
  end.

(** [getVectorStore()]: the singleton is stored before it is initialized,
    so a failed initialization leaves an uninitialized instance behind. *)
Definition getVectorStore : M t :=
  instance ← readInstance;
  match instance with
  | Some vs => mret vs
  | None =>
      _ ← writeInstance new;
      vs ← initialize new;
      _ ← writeInstance vs;
      mret vs
  end.

End WithExternals.
End VectorStore.

(** ** The answer orchestrator ([src/services/rag.ts]) *)

Module RAGEngine.

Definition SYSTEM_PROMPT : string :=
  join nl
    [ "あなたは板金塗装業界のCRMデータを分析する専門アシスタントです。";
      "";
      "以下の点に注意して回答してください：";
      "1. 顧客情報、見積情報、作業履歴などのCRMデータを正確に解釈する";
      "2. 板金塗装業界の専門用語（へこみ修理、塗装、コーティング、バンパー交換など）を適切に使用する";
      "3. 提供されたコンテキスト情報に基づいて、具体的で正確な回答を生成する";
      "4. 不明な点や情報が不足している場合は、その旨を明確に伝える";
      "5. 金額や日付などの数値情報は正確に伝える";
      "6. 顧客に対して丁寧で分かりやすい言葉を使う";
      "";
      "回答は簡潔で、要点を押さえたものにしてください。" ].

(** The options of a request with their defaults:
    [const { topK = 5, minScore = 0.5 } = options || {}]. *)
Definition topKOf (queryRequest : RAGQuery.t) : number :=
  default 5%Q (RAGQuery.options queryRequest ≫= RAGQuery.topK).

Definition minScoreOf (queryRequest : RAGQuery.t) : number :=
  default (1 # 2)%Q (RAGQuery.options queryRequest ≫= RAGQuery.minScore).

(** [calculateConfidence(sources)] *)
Definition calculateConfidence (sources : list SearchSource.t) : number :=
  if Nat.eqb (length sources) 0 then 0%Q
  else
    let avgScore :=
      (fold_left (fun sum source => sum + SearchSource.score source) sources 0
       / inject_Z (Z.of_nat (length sources)))%Q in
    Qmin avgScore 1.

(** The filtering step of [query]:
    [searchResults.filter((result) => result.score >= minScore)]. *)
Definition filterByMinScore (minScore : number)
    (searchResults : list VectorSearchResult.t) : list VectorSearchResult.t :=
  List.filter (fun result => Qle_bool minScore (VectorSearchResult.score result))
              searchResults.

(** The reshaping step of [query]: a result as a [SearchSource]. *)
Definition toSearchSource (result : VectorSearchResult.t) : SearchSource.t :=
  {| SearchSource.content := VectorDocument.content (VectorSearchResult.document result);
     SearchSource.metadata := VectorDocument.metadata (VectorSearchResult.document result);
     SearchSource.score := VectorSearchResult.score result |}.

(** The extraction step of [query]:
    [response.content[0].type === 'text' ? response.content[0].text : '...'].
    Only the first block is looked at; on an empty [content] the read of
    [.type] on [undefined] raises. *)
Definition extractAnswer (response : Message.t) : outcome string :=
  match Message.content response with
  | TextBlock text :: _ => Ok text
  | ToolUseBlock _ _ _ :: _ => Ok "回答を生成できませんでした。"
  | [] => Throw (undefinedRead "type")
  end.

Section WithServices.
Variable B : Builtins.
Variable E : Externals.

(** [buildContext(sources)] *)
Definition buildContext (sources : list SearchSource.t) : string :=
  if Nat.eqb (length sources) 0 then "関連する情報が見つかりませんでした。"
  else
    let contextParts :=
      imap (fun index source =>
              "【コンテキスト "
              +:+ Number_toString B (inject_Z (Z.of_nat (index + 1)))
              +:+ "】（関連度: "
              +:+ Number_toFixed B (SearchSource.score source * 100)%Q 1
              +:+ "%）" +:+ nl +:+ SearchSource.content source)
           sources in
    join (nl +:+ nl) contextParts.

(** The user prompt of [query]. *)
Definition userPrompt (context query : string) : string :=
  join nl
    [ "以下のコンテキスト情報を参考に、ユーザーの質問に答えてください。";
      "";
      context;
      "";
      "【ユーザーの質問】";
      query;
      "";
      "【回答】" ].

(** The argument of [anthropic.messages.create] in [query]. *)
Definition generationParams (context query : string) : MessageCreateParams.t :=
  {| MessageCreateParams.model := "claude-3-5-sonnet-20241022";
     MessageCreateParams.max_tokens := 1024%Q;
     MessageCreateParams.system := SYSTEM_PROMPT;
     MessageCreateParams.messages :=
       [ {| MessageParam.role := user;
            MessageParam.content := userPrompt context query |} ] |}.

(** [query(queryRequest)] *)
Definition query (queryRequest : RAGQuery.t) : M RAGResponse.t :=
  let query := RAGQuery.query queryRequest in
  let topK := topKOf queryRequest in
  let minScore := minScoreOf queryRequest in
  tryCatch
    (vectorStore ← VectorStore.getVectorStore E;
     searchResults ←
       VectorStore.search E vectorStore query
         {| VectorSearchOptions.topK := Some topK;
            VectorSearchOptions.filter := None |};
     let filteredResults := filterByMinScore minScore searchResults in
     let sources := map toSearchSource filteredResults in
     let context := buildContext sources in
     let params := generationParams context query in
     response ← await (MessagesCreate params)
                      (fun h => anthropic_messages_create E h params);
     answer ← liftOutcome (extractAnswer response);
     let confidence := calculateConfidence sources in
     mret {| RAGResponse.answer := answer;
             RAGResponse.sources := sources;
             RAGResponse.confidence := confidence |})
    (fun _ => throw (Error "RAGクエリの実行に失敗しました")).

(** The messages of [conversationalQuery]: the history, turn by turn, then
    the user turn that carries the context and the question. *)
Definition conversationMessages (history : list ConversationMessage.t)
    (context query : string) : list MessageParam.t :=
  map (fun msg =>
         {| MessageParam.role := ConversationMessage.role msg;
            MessageParam.content := ConversationMessage.content msg |})
      history
  ++ [ {| MessageParam.role := user;
          MessageParam.content := userPrompt context query |} ].

(** [conversationalQuery(queryRequest)] *)
Definition conversationalQuery (queryRequest : ConversationalRAGQuery.t)
  : M RAGResponse.t :=
  let query := ConversationalRAGQuery.query queryRequest in
  let history := ConversationalRAGQuery.history queryRequest in
  let options := ConversationalRAGQuery.options queryRequest in
  let topK := default 5%Q (options ≫= RAGQuery.topK) in
  let minScore := default (1 # 2)%Q (options ≫= RAGQuery.minScore) in
  tryCatch
    (vectorStore ← VectorStore.getVectorStore E;
     searchResults ←
       VectorStore.search E vectorStore query
         {| VectorSearchOptions.topK := Some topK;
            VectorSearchOptions.filter := None |};
     let filteredResults := filterByMinScore minScore searchResults in
     let sources := map toSearchSource filteredResults in
     let context := buildContext sources in
     let params :=
       {| MessageCreateParams.model := "claude-3-5-sonnet-20241022";
          MessageCreateParams.max_tokens := 1024%Q;
          MessageCreateParams.system := SYSTEM_PROMPT;
          MessageCreateParams.messages := conversationMessages history context query |} in
     response ← await (MessagesCreate params)
                      (fun h => anthropic_messages_create E h params);
     answer ← liftOutcome (extractAnswer response);
     let confidence := calculateConfidence sources in
     mret {| RAGResponse.answer := answer;
             RAGResponse.sources := sources;
             RAGResponse.confidence := confidence |})
    (fun _ => throw (Error "会話型RAGクエリの実行に失敗しました")).

End WithServices.
End RAGEngine.

(** ** The ingestion pipeline ([src/services/dataIngestion.ts]) *)

Module DataIngestionService.

(** What [ingestBulk] resolves to. *)
Record BulkResult : Type := {
  total : nat;
  byType : gmap string nat;
}.

Section WithServices.
Variable B : Builtins.
Variable E : Externals.

(** The key of a document:
    [item.customerId || item.quoteId || item.workId || index]. *)
Definition naturalKey (item : CRMData) (index : nat) : string :=
  let fallback := Number_toString B (inject_Z (Z.of_nat index)) in
  match item with
  | ACustomer c => orElse (Some (Customer.customerId c)) fallback
  | AQuote q =>
      orElse (Some (Quote.customerId q)) (orElse (Some (Quote.quoteId q)) fallback)
  | AWorkHistory w =>
      orElse (Some (WorkHistory.customerId w))
             (orElse (Some (WorkHistory.workId w)) fallback)
  end.

(** The conversion step of [ingestFromSource]: each item with its index. *)
Definition toDocuments (dataType : string) (data : list CRMData)
  : outcome (list VectorDocument.t) :=
  mapThrowing
    (fun '(index, item) =>
       andThen (CRMConnector.convertToText B item dataType) (fun content =>
       Ok {| VectorDocument.id := dataType +:+ "_" +:+ naturalKey item index;
             VectorDocument.content := content;
             VectorDocument.metadata :=
               ("type", JSString dataType) :: CRMData_toObject item;
             VectorDocument.embedding := None |}))
    (imap (fun index item => (index, item)) data).

(** [ingestFromSource(request)] *)
Definition ingestFromSource (request : DataIngestionRequest.t) : M nat :=
  let source := DataIngestionRequest.source request in
  let dataType := DataIngestionRequest.dataType request in
  tryCatch
    (data ← CRMConnector.loadData E source;
     if Nat.eqb (length data) 0 then mret 0%nat
     else
       documents ← liftOutcome (toDocuments dataType data);
       vectorStore ← VectorStore.getVectorStore E;
       _ ← VectorStore.addDocuments E vectorStore documents;
       mret (length documents))
    (fun _ => throw (Error "データの取り込みに失敗しました")).

(** The loop of [ingestBulk], from the running [total] and [byType]. *)
Fixpoint ingestBulkFrom (requests : list DataIngestionRequest.t)
    (total : nat) (byType : gmap string nat) : M BulkResult :=
  match requests with
  | [] => mret {| total := total; byType := byType |}
  | request :: rest =>
      let dataType := DataIngestionRequest.dataType request in
      '(total', byType') ←
        tryCatch
          (count ← ingestFromSource request;
           mret (total + count,
                 <[dataType := default 0 (byType !! dataType) + count]> byType))
          (fun _ => mret (total, byType));
      ingestBulkFrom rest total' byType'
  end.

(** [ingestBulk(requests)] *)
Definition ingestBulk (requests : list DataIngestionRequest.t) : M BulkResult :=
  ingestBulkFrom requests 0 ∅.

End WithServices.
End DataIngestionService.

(** ** The HTTP surface ([src/api/server.ts]) *)

Module Server.

(** The JSON bodies the handlers answer with. *)
Inductive ResponseBody : Type :=
| ErrorBody (error : string)
| QueryBody (response : RAGResponse.t)
| IngestBody (success : bool) (message : string) (count : nat)
| BulkBody (success : bool) (message : string) (total : nat)
           (byType : gmap string nat).

(** What a handler sends: [res.status(code).json(body)], the status being
    200 when the handler does not set it. *)
Record HttpResponse : Type := {
  status : nat;
  body : ResponseBody;
}.

(** [error.message] *)
Definition messageOf (e : JsError) : string :=
  match e with
  | Error message => message
  | TypeError message => message
  end.

Section WithServices.
Variable B : Builtins.
Variable E : Externals.

(** The handler of [POST /api/query], from the parsed request body. *)
Definition postQuery (queryRequest : RAGQuery.t) : M HttpResponse :=
  tryCatch
    (if negb (truthyString (Some (RAGQuery.query queryRequest)))
     then mret {| status := 400; body := ErrorBody "クエリが指定されていません" |}
     else
       response ← RAGEngine.query B E queryRequest;
       mret {| status := 200; body := QueryBody response |})
    (fun error =>
       mret {| status := 500;
               body := ErrorBody (orElse (Some (messageOf error))
                                         "RAGクエリの実行に失敗しました") |}).



End WithServices.
End Server.

(** ** A concrete runtime for the worked examples *)

Module Example.

(** Thousands separators, on the digits in reverse order. *)
Fixpoint groupReversed (digits : list Ascii.ascii) : list Ascii.ascii :=
  match digits with
  | a :: b :: c :: ((_ :: _) as rest) =>
      a :: b :: c :: Ascii.ascii_of_nat 44 :: groupReversed rest
  | _ => digits
  end.

Definition groupThousands (digits : string) : string :=
  String.string_of_list_ascii (rev (groupReversed (rev (String.list_ascii_of_string digits)))).

(** Number formatting that agrees with JavaScript (and, for
    [toLocaleString], with the [en-US] and [ja-JP] locales) on the integers,
    which is what the examples print; a fraction is shown as [n/d]. *)
Definition numberToString (n : number) : string :=
  let r := Qred n in
  if Pos.eqb (Qden r) 1 then pretty (Qnum r)
  else pretty (Qnum r) +:+ "/" +:+ pretty (Zpos (Qden r)).

Definition numberToLocaleString (n : number) : string :=
  let r := Qred n in
  if Pos.eqb (Qden r) 1 then
    (if Z.ltb (Qnum r) 0 then "-" else "") +:+ groupThousands (pretty (Z.abs (Qnum r)))
  else numberToString n.

(** [x.toFixed(digits)] on an exact rational: the nearest multiple of
    [10^-digits], a tie going to the larger magnitude. *)
Definition numberToFixed (x : number) (digits : nat) : string :=
  let scaled := Qfloor (Qabs x * inject_Z (10 ^ Z.of_nat digits) + (1 # 2))%Q in
  let shown := pretty scaled in
  let padded :=
    String.concat "" (replicate (digits + 1 - String.length shown) "0") +:+ shown in
  let cut := (String.length padded - digits)%nat in
  (if Qle_bool 0 x then "" else "-")
  +:+ String.substring 0 cut padded
  +:+ (if Nat.eqb digits 0 then "" else "." +:+ String.substring cut digits padded).

Definition builtins : Builtins :=
  {| Number_toString := numberToString;
     Number_toLocaleString := numberToLocaleString;
     Number_toFixed := numberToFixed |}.

(** Services that always answer: the index with [response], the generation
    provider with [message], the file reader with [files]. *)
Definition services (response : QueryResponse.t) (message : outcome Message.t)
    (files : string -> outcome (list CRMData)) : Externals :=
  {| COLLECTION_NAME := "bankin_crm_data";
     chroma_getOrCreateCollection := fun _ name => Ok {| collection_name := name |};
     openai_embeddings_create := fun _ text => Ok [[inject_Z (Z.of_nat (String.length text))]];
     collection_add := fun _ _ _ => Ok tt;
     collection_query := fun _ _ _ => Ok response;
     anthropic_messages_create := fun _ _ => message;
     connector_readJSON := fun _ path => files path;
     connector_readCSV := fun _ path => files path;
     connector_fetchFromAPI := fun _ _ _ => Throw (Error "HTTP 503: Service Unavailable") |}.

(** The world of a freshly started process. *)
Definition freshWorld : World := {| vectorStoreInstance := None; calls := [] |}.

(** The customer of the end-to-end scenario of the specification. *)
Definition tanaka : Customer.t :=
  {| Customer.customerId := "C1";
     Customer.name := "Tanaka";
     Customer.phone := "090-0000-0000";
     Customer.email := None;
     Customer.address := None;
     Customer.totalSales := 500000%Q;
     Customer.visitCount := 3%Q;
     Customer.registeredAt := None;
     Customer.notes := None |}.

(** What the index answers for one query: the stored documents [ids] at the
    raw [distances], nearest first. *)
Definition indexAnswer (ids : list string) (distances : list Q) : QueryResponse.t :=
  {| QueryResponse.ids := [ids];
     QueryResponse.documents := Some [map (fun id => Some ("document " +:+ id)) ids];
     QueryResponse.metadatas :=
       Some [map (fun id => Some [("type", JSString "customer"); ("id", JSString id)]) ids];
     QueryResponse.distances := Some [distances] |}.

(** Three retrieved documents, scoring 0.9, 0.6 and 0.3. *)
Definition threeResults : list VectorSearchResult.t :=
  VectorStore.formatResults
    (indexAnswer ["customer_C1"; "customer_C2"; "customer_C3"] [1 # 9; 2 # 3; 7 # 3]%Q).

(** A store whose best match scores 0.6, as in the end-to-end scenario of
    the specification. *)
Definition bestMatchSixTenths : list VectorSearchResult.t :=
  VectorStore.formatResults (indexAnswer ["customer_C1"] [2 # 3]%Q).

(** An index answer that carries no distances. *)
Definition answerWithoutDistances : QueryResponse.t :=
  {| QueryResponse.ids := [["customer_C1"]];
     QueryResponse.documents := Some [[Some "document customer_C1"]];
     QueryResponse.metadatas := None;
     QueryResponse.distances := None |}.

(** An initialized store. *)
Definition readyStore : VectorStore.t :=
  {| VectorStoreState.collection := Some {| collection_name := "bankin_crm_data" |} |}.

Definition defaultSearch : VectorSearchOptions.t :=
  {| VectorSearchOptions.topK := None; VectorSearchOptions.filter := None |}.

(** The services around an index that answers [response], with a generation
    provider that answers one text block. *)
Definition servicesOver (response : QueryResponse.t) : Externals :=
  services response (Ok {| Message.content := [TextBlock "3件の顧客が該当します。"] |})
           (fun _ => Ok []).


(** A generation response with no content block at all. *)
Definition emptyContent : Message.t := {| Message.content := [] |}.

(** The services around an index holding the three documents, with a
    generation provider that answers [message]. *)
Definition servicesAnswering (message : Message.t) : Externals :=
  services (indexAnswer ["customer_C1"; "customer_C2"; "customer_C3"] [1 # 9; 2 # 3; 7 # 3]%Q)
           (Ok message) (fun _ => Ok []).

(** The query of the end-to-end scenario, with the default options. *)
Definition vipRequest : RAGQuery.t :=
  {| RAGQuery.query := "VIP customers"; RAGQuery.options := None |}.

Definition suzuki : Customer.t :=
  {| Customer.customerId := "C2";
     Customer.name := "Suzuki";
     Customer.phone := "090-1111-1111";
     Customer.email := Some "suzuki@example.com";
     Customer.address := Some "東京都港区1-2-3";
     Customer.totalSales := 1250000%Q;
     Customer.visitCount := 12%Q;
     Customer.registeredAt := Some "2023-04-01";
     Customer.notes := Some "法人契約" |}.

Definition bumperRepair : WorkHistory.t :=
  {| WorkHistory.workId := "W1";
     WorkHistory.customerId := "C1";
     WorkHistory.vehicleInfo := "トヨタ プリウス 2020";
     WorkHistory.workType := repair;
     WorkHistory.description := "バンパー交換";
     WorkHistory.technician := "佐藤";
     WorkHistory.workDate := "2024-05-10";
     WorkHistory.partsUsed := None;
     WorkHistory.laborCost := 30000%Q;
     WorkHistory.partsCost := 45000%Q;
     WorkHistory.totalCost := 75000%Q;
     WorkHistory.rating := None;
     WorkHistory.notes := None |}.

(** A file system with two readable files; anything else fails to load. *)
Definition sampleFiles (path : string) : outcome (list CRMData) :=
  if String.eqb path "customers.json" then Ok [ACustomer tanaka; ACustomer suzuki]
  else if String.eqb path "work_history.json" then Ok [AWorkHistory bumperRepair]
  else Throw (Error ("JSONファイルの読み込みに失敗しました: " +:+ path)).

Definition jsonSource (path dataType : string) : DataIngestionRequest.t :=
  {| DataIngestionRequest.source :=
       {| DataSource.type := json;
          DataSource.path := Some path;
          DataSource.apiEndpoint := None;
          DataSource.headers := None |};
     DataIngestionRequest.dataType := dataType |}.

(** Three sources of which the second cannot be read. *)
Definition threeSources : list DataIngestionRequest.t :=
  [ jsonSource "customers.json" "customer";
    jsonSource "quotes.json" "quote";
    jsonSource "work_history.json" "work_history" ].

Definition ingestionServices : Externals :=
  services (indexAnswer [] []) (Ok emptyContent) sampleFiles.


(** A second job for the customer of [bumperRepair]. *)
Definition paintJob : WorkHistory.t :=
  {| WorkHistory.workId := "W2";
     WorkHistory.customerId := "C1";
     WorkHistory.vehicleInfo := "トヨタ プリウス 2020";
     WorkHistory.workType := paint;
     WorkHistory.description := "ドア塗装";
     WorkHistory.technician := "鈴木";
     WorkHistory.workDate := "2024-06-02";
     WorkHistory.partsUsed := Some [];
     WorkHistory.laborCost := 50000%Q;
     WorkHistory.partsCost := 0%Q;
     WorkHistory.totalCost := 50000%Q;
     WorkHistory.rating := Some 5%Q;
     WorkHistory.notes := None |}.



(** Services whose vector database cannot be reached: [getOrCreateCollection]
    fails, everything else answers. *)
Definition servicesWithoutChroma : Externals :=
  {| COLLECTION_NAME := "bankin_crm_data";
     chroma_getOrCreateCollection := fun _ _ => Throw (Error "fetch failed");
     openai_embeddings_create := fun _ text => Ok [[inject_Z (Z.of_nat (String.length text))]];
     collection_add := fun _ _ _ => Ok tt;
     collection_query := fun _ _ _ => Ok (indexAnswer [] []);
     anthropic_messages_create := fun _ _ => Ok emptyContent;
     connector_readJSON := (fun _ path => sampleFiles path);
     connector_readCSV := (fun _ path => sampleFiles path);
     connector_fetchFromAPI := fun _ _ _ => Throw (Error "HTTP 503: Service Unavailable") |}.

End Example.

(** ** Notions of the specification *)

Module Spec.

(** The sum of a list of numbers. *)
Fixpoint sum (xs : list number) : number :=
  match xs with
  | [] => 0%Q
  | x :: rest => (x + sum rest)%Q
  end.

(** The arithmetic mean: the sum over the number of elements. *)
Definition arithmeticMean (xs : list number) : number :=
  (sum xs / inject_Z (Z.of_nat (length xs)))%Q.

(** [x] clamped above at [bound]. *)
Definition clampAbove (bound x : number) : number :=
  if Qle_bool x bound then x else bound.

(** The confidence [query] reports when the retriever returned [results]:
    the composition of its filtering, reshaping and confidence steps. *)
Definition confidenceAt (minScore : number) (results : list VectorSearchResult.t)
  : number :=
  RAGEngine.calculateConfidence
    (map RAGEngine.toSearchSource (RAGEngine.filterByMinScore minScore results)).



(** The lines of a text: [text.split('\n')]. *)
Fixpoint lines (text : string) : list string :=
  match text with
  | EmptyString => [""]
  | String c rest =>
      if Ascii.eqb c (Ascii.ascii_of_nat 10) then "" :: lines rest
      else
        match lines rest with
        | line :: others => String c line :: others
        | [] => [String c ""]
        end
  end.

(** Some line of [text] starts with [label]. *)
Definition fieldLinePresent (label text : string) : Prop :=
  exists line, line ∈ lines text /\ String.prefix label line = true.

(** What the outcomes of the sources of a bulk ingestion add up to: the
    counts of the ones that succeeded. *)
Definition succeededTotal (outcomes : list (outcome nat)) : nat :=
  foldr (fun o acc => match o with Ok count => count + acc | Throw _ => acc end)%nat
        0%nat outcomes.


(** The outcomes of the sources of a bulk ingestion, each source run in the
    world its predecessors left, with the world after the last one. *)
Fixpoint sourceOutcomes (B : Builtins) (E : Externals)
    (requests : list DataIngestionRequest.t) (w : World)
  : list (outcome nat) * World :=
  match requests with
  | [] => ([], w)
  | request :: rest =>
      let '(o, w1) := DataIngestionService.ingestFromSource B E request w in
      let '(others, w2) := sourceOutcomes B E rest w1 in
      (o :: others, w2)
  end.

(** A record of the variant a known data type names; under any other tag
    every record passes. *)
Definition matchesType (dataType : string) (item : CRMData) : bool :=
  if String.eqb dataType "customer" then
    match item with ACustomer _ => true | _ => false end
  else if String.eqb dataType "quote" then
    match item with AQuote _ => true | _ => false end
  else if String.eqb dataType "work_history" then
    match item with AWorkHistory _ => true | _ => false end
  else true.

(** A source that names no place to read from, or a format without reader. *)
Definition lacksLocation (source : DataSource.t) : bool :=
  match DataSource.type source with
  | json | csv => negb (truthyString (DataSource.path source))
  | excel => true
  | api => negb (truthyString (DataSource.apiEndpoint source))
  end.

(** The customer a record refers to: its [customerId] property. *)
Definition customerReference (item : CRMData) : string :=
  match item with
  | ACustomer c => Customer.customerId c
  | AQuote q => Quote.customerId q
  | AWorkHistory w => WorkHistory.customerId w
  end.


(** How often the character [c] occurs in [text]. *)
Fixpoint occurrences (c : Ascii.ascii) (text : string) : nat :=
  match text with
  | EmptyString => 0%nat
  | String c' rest =>
      if Ascii.eqb c' c then S (occurrences c rest) else occurrences c rest
  end.

(** The column names [readCSV] takes from a file: the cells of the first line
    of the trimmed content, each trimmed. *)
Definition headerCells (content : string) : list string :=
  map CRMConnector.JS_trim
      (CRMConnector.split CRMConnector.comma
         (default "" (head (CRMConnector.split CRMConnector.newline
                              (CRMConnector.JS_trim content))))).

(** A cell that is written as it is: it holds no comma and no line feed, and
    no white space surrounds it. *)
Definition plainCell (cell : string) : Prop :=
  occurrences CRMConnector.comma cell = 0%nat
  /\ occurrences CRMConnector.newline cell = 0%nat
  /\ CRMConnector.JS_trim cell = cell.

(** A line of a CSV file: the cells, separated by commas. *)
Definition csvLine (cells : list string) : string :=
  join (String CRMConnector.comma "") cells.

(** A table written as a CSV file: the header line, then one line per row. *)
Definition csvContent (headers : list string) (rows : list (list string)) : string :=
  join (String CRMConnector.newline "") (map csvLine (headers :: rows)).

(** The object of a row: every column name with the cell under it. *)
Definition tableRecord (headers row : list string) : gmap string (option string) :=
  list_to_map (zip headers (map Some row)).

End Spec.

(** * Properties *)

Local Open Scope Q_scope.

(** Unfolds the plumbing of [M], leaving the calls of the services. *)
Ltac unfold_M :=
  unfold tryCatch, mbind, M_bind, await, liftOutcome, mret, M_ret, throw.

(** ** Arithmetic of scores *)

Lemma fold_left_sum_scores (sources : list SearchSource.t) (acc : Q) :
  fold_left (fun sum source => sum + SearchSource.score source) sources acc
  == acc + Spec.sum (map SearchSource.score sources).
Proof.
  revert acc; induction sources as [|s rest IH]; intros acc; simpl.
  - ring.
  - rewrite IH. ring.
Qed.

Lemma clampAbove_min (bound x : Q) : Spec.clampAbove bound x == Qmin x bound.
Proof.
  unfold Spec.clampAbove.
  destruct (Qle_bool x bound) eqn:Hle.
  - apply Qle_bool_iff in Hle. symmetry. apply Q.min_l. exact Hle.
  - symmetry. apply Q.min_r. apply Qlt_le_weak, Qnot_le_lt.
    intros H. apply Qle_bool_iff in H. congruence.
Qed.


Lemma calculateConfidence_nil : RAGEngine.calculateConfidence [] = 0.
Proof. reflexivity. Qed.

Lemma calculateConfidence_cons (s : SearchSource.t) (rest : list SearchSource.t) :
  RAGEngine.calculateConfidence (s :: rest)
  == Qmin (Spec.arithmeticMean (map SearchSource.score (s :: rest))) 1.
Proof.
  unfold RAGEngine.calculateConfidence, Spec.arithmeticMean.
  change (Nat.eqb (length (s :: rest)) 0) with false. cbv iota.
  rewrite fold_left_sum_scores, length_map.
  apply Q.min_compat; [|reflexivity].
  apply Qdiv_comp; [ring|reflexivity].
Qed.

(** C1.  For a non-empty list of sources [calculateConfidence] is the
    arithmetic mean of their scores clamped above at 1, and for the empty
    list it is exactly 0. *)
Theorem C1_confidence_is_clamped_mean :
  (forall sources : list SearchSource.t,
      sources <> [] ->
      RAGEngine.calculateConfidence sources
      == Spec.clampAbove 1 (Spec.arithmeticMean (map SearchSource.score sources)))
  /\ RAGEngine.calculateConfidence [] = 0.
Proof.
  split; [|reflexivity].
  intros [|s rest] Hne; [congruence|].
  rewrite calculateConfidence_cons, clampAbove_min. reflexivity.
Qed.

Lemma C1_witness :
  map RAGEngine.toSearchSource Example.threeResults <> []
  /\ RAGEngine.calculateConfidence (map RAGEngine.toSearchSource Example.threeResults)
     == Spec.clampAbove 1
          (Spec.arithmeticMean
             (map SearchSource.score (map RAGEngine.toSearchSource Example.threeResults))).
Proof.
  assert (map RAGEngine.toSearchSource Example.threeResults <> []) as Hne
    by (vm_compute; discriminate).
  split; [exact Hne|].
  exact (proj1 C1_confidence_is_clamped_mean _ Hne).
Defined.

(** The three example documents, scoring 0.9, 0.6 and 0.3, give the
    confidence 0.6. *)
Example calculateConfidence_threeResults :
  RAGEngine.calculateConfidence (map RAGEngine.toSearchSource Example.threeResults)
  == 3 # 5.
Proof. vm_compute. reflexivity. Qed.

(** ** Filtering by the minimum score *)







(** ** Runs of [query] *)

(** What a normal completion of [query] went through: the singleton was
    obtained, the retriever answered, the generation provider answered, and
    the response was assembled from the filtered results. *)
Lemma query_ok_inv (B : Builtins) (E : Externals) (req : RAGQuery.t)
    (w w' : World) (resp : RAGResponse.t) :
  RAGEngine.query B E req w = (Ok resp, w') ->
  exists vs w1 searchResults w2 message,
    VectorStore.getVectorStore E w = (Ok vs, w1)
    /\ VectorStore.search E vs (RAGQuery.query req)
         {| VectorSearchOptions.topK := Some (RAGEngine.topKOf req);
            VectorSearchOptions.filter := None |} w1
       = (Ok searchResults, w2)
    /\ anthropic_messages_create E (calls w2)
         (RAGEngine.generationParams
            (RAGEngine.buildContext B
               (map RAGEngine.toSearchSource
                    (RAGEngine.filterByMinScore (RAGEngine.minScoreOf req) searchResults)))
            (RAGQuery.query req))
       = Ok message
    /\ RAGEngine.extractAnswer message = Ok (RAGResponse.answer resp)
    /\ RAGResponse.sources resp
       = map RAGEngine.toSearchSource
           (RAGEngine.filterByMinScore (RAGEngine.minScoreOf req) searchResults)
    /\ RAGResponse.confidence resp
       = Spec.confidenceAt (RAGEngine.minScoreOf req) searchResults.
Proof.
  unfold RAGEngine.query. unfold_M.
  intros Hrun.
  destruct (VectorStore.getVectorStore E w) as [[vs|e] w1] eqn:Hget; [|discriminate].
  destruct (VectorStore.search E vs _ _ w1) as [[searchResults|e] w2] eqn:Hsearch;
    [|discriminate].
  destruct (anthropic_messages_create E (calls w2) _) as [message|e] eqn:Hgen;
    [|discriminate].
  destruct (RAGEngine.extractAnswer message) as [answer|e] eqn:Hanswer; [|discriminate].
  injection Hrun as <- <-.
  exists vs, w1, searchResults, w2, message. cbn [RAGResponse.answer
    RAGResponse.sources RAGResponse.confidence].
  split; [reflexivity|]. split; [exact Hsearch|]. split; [exact Hgen|].
  split; [exact Hanswer|]. split; reflexivity.
Qed.


(** ** Confidence against the threshold *)






(** ** The threshold boundary *)

Lemma filterByMinScore_spec (minScore : Q) (results : list VectorSearchResult.t)
    (r : VectorSearchResult.t) :
  r ∈ RAGEngine.filterByMinScore minScore results
  <-> r ∈ results /\ minScore <= VectorSearchResult.score r.
Proof.
  unfold RAGEngine.filterByMinScore.
  rewrite !list_elem_of_In, filter_In, Qle_bool_iff. reflexivity.
Qed.

(** C4.  The filtering step keeps a result whose score equals the threshold:
    the comparison is inclusive, whatever the results and the threshold. *)
Theorem C4_threshold_inclusive
    (results : list VectorSearchResult.t) (minScore : Q) (r : VectorSearchResult.t) :
  r ∈ results ->
  VectorSearchResult.score r == minScore ->
  r ∈ RAGEngine.filterByMinScore minScore results.
Proof.
  intros Hin Heq.
  apply filterByMinScore_spec. split; [exact Hin|].
  rewrite Heq. apply Qle_refl.
Qed.

(** ** From raw distance to score *)

Lemma distanceToScore_positive (d : Q) :
  0 <= d -> 0 < VectorStore.distanceToScore (Some d).
Proof.
  intros Hd. unfold VectorStore.distanceToScore.
  apply Qlt_shift_div_l; lra.
Qed.





(** Every result of the shaping loop carries the score of its own distance. *)
Lemma formatResults_score (response : QueryResponse.t) (r : VectorSearchResult.t) :
  r ∈ VectorStore.formatResults response ->
  VectorSearchResult.score r
  = VectorStore.distanceToScore (VectorSearchResult.distance r).
Proof.
  unfold VectorStore.formatResults.
  destruct (QueryResponse.ids response) as [|ids0 others].
  - intros Hin. inversion Hin.
  - intros Hin. apply elem_of_lookup_imap_1 in Hin as (i & id & -> & _).
    reflexivity.
Qed.

(** A normal completion of [search] returns the shaped answer of the index. *)
Lemma search_ok_inv (E : Externals) (self : VectorStore.t) (query : string)
    (options : VectorSearchOptions.t) (w w' : World)
    (results : list VectorSearchResult.t) :
  VectorStore.search E self query options w = (Ok results, w') ->
  exists coll response,
    VectorStoreState.collection self = Some coll
    /\ results = VectorStore.formatResults response.
Proof.
  unfold VectorStore.search.
  destruct (VectorStoreState.collection self) as [coll|]; [|discriminate].
  unfold_M.
  destruct (VectorStore.generateEmbedding E query w) as [[embedding|e] w1]; [|discriminate].
  destruct (collection_query E (calls w1) coll _) as [response|e]; [|discriminate].
  intros Hrun. injection Hrun as <- <-.
  exists coll, response. split; reflexivity.
Qed.

Lemma search_score (E : Externals) (self : VectorStore.t) (query : string)
    (options : VectorSearchOptions.t) (w w' : World)
    (results : list VectorSearchResult.t) (r : VectorSearchResult.t) :
  VectorStore.search E self query options w = (Ok results, w') ->
  r ∈ results ->
  VectorSearchResult.score r
  = VectorStore.distanceToScore (VectorSearchResult.distance r).
Proof.
  intros Hrun Hin.
  apply search_ok_inv in Hrun as (coll & response & _ & ->).
  apply formatResults_score with response. exact Hin.
Qed.



Lemma C4_witness :
  exists r,
    Example.threeResults !! 1%nat = Some r
    /\ VectorSearchResult.score r == 3 # 5
    /\ r ∈ RAGEngine.filterByMinScore (3 # 5) Example.threeResults.
Proof.
  eexists. split; [reflexivity|]. split; [reflexivity|].
  apply C4_threshold_inclusive.
  - apply (list_elem_of_lookup_2 _ 1%nat). reflexivity.
  - reflexivity.
Defined.

(** Within a run of [query], a retrieved result whose score equals the
    threshold of the request is among the sources of the response. *)
Lemma query_keeps_result_at_threshold (B : Builtins) (E : Externals) (req : RAGQuery.t)
    (w w' : World) (resp : RAGResponse.t) :
  RAGEngine.query B E req w = (Ok resp, w') ->
  exists vs w1 searchResults w2,
    VectorStore.search E vs (RAGQuery.query req)
      {| VectorSearchOptions.topK := Some (RAGEngine.topKOf req);
         VectorSearchOptions.filter := None |} w1
    = (Ok searchResults, w2)
    /\ forall r,
        r ∈ searchResults ->
        VectorSearchResult.score r == RAGEngine.minScoreOf req ->
        RAGEngine.toSearchSource r ∈ RAGResponse.sources resp.
Proof.
  intros Hrun.
  apply query_ok_inv in Hrun
    as (vs & w1 & searchResults & w2 & message & _ & Hsearch & _ & _ & Hsources & _).
  exists vs, w1, searchResults, w2. split; [exact Hsearch|].
  intros r Hin Heq. rewrite Hsources.
  apply list_elem_of_fmap. exists r. split; [reflexivity|].
  apply filterByMinScore_spec. split; [exact Hin|].
  rewrite Heq. apply Qle_refl.
Qed.

(** ** Results without a distance *)

Lemma filtered_scores_reach_threshold (minScore : Q)
    (results : list VectorSearchResult.t) (r : VectorSearchResult.t) :
  r ∈ RAGEngine.filterByMinScore minScore results ->
  minScore <= VectorSearchResult.score r.
Proof.
  intros Hin. apply filterByMinScore_spec in Hin as [_ Hle]. exact Hle.
Qed.

(** C8.  A result of [search] whose raw distance is absent has score exactly
    0, below which no result with an absent or non-negative distance scores;
    so a strictly positive threshold removes it in the filtering step and no
    source of the response stems from it. *)
Theorem C8_absent_distance_scores_zero
    (E : Externals) (self : VectorStore.t) (query : string)
    (options : VectorSearchOptions.t) (w w' : World)
    (results : list VectorSearchResult.t) (r : VectorSearchResult.t) :
  VectorStore.search E self query options w = (Ok results, w') ->
  r ∈ results ->
  VectorSearchResult.distance r = None ->
  VectorSearchResult.score r = 0
  /\ (forall r',
        r' ∈ results ->
        (forall d, VectorSearchResult.distance r' = Some d -> 0 <= d) ->
        VectorSearchResult.score r <= VectorSearchResult.score r')
  /\ (forall minScore,
        0 < minScore ->
        (r ∉ RAGEngine.filterByMinScore minScore results)
        /\ (RAGEngine.toSearchSource r
            ∉ map RAGEngine.toSearchSource
                (RAGEngine.filterByMinScore minScore results))).
Proof.
  intros Hrun Hin Hdist.
  pose proof (search_score E self query options w w' results) as Hscore.
  specialize (fun r => Hscore r Hrun).
  assert (VectorSearchResult.score r = 0) as Hzero.
  { rewrite (Hscore r Hin), Hdist. reflexivity. }
  split; [exact Hzero|]. split.
  - intros r' Hin' Hnonneg. rewrite Hzero, (Hscore r' Hin').
    destruct (VectorSearchResult.distance r') as [d|]; [|apply Qle_refl].
    apply Qlt_le_weak, distanceToScore_positive, Hnonneg. reflexivity.
  - intros minScore Hpos. split.
    + intros Hkept. apply filtered_scores_reach_threshold in Hkept.
      rewrite Hzero in Hkept. lra.
    + intros Hsource. apply list_elem_of_fmap in Hsource as (r' & Heq & Hkept).
      apply filtered_scores_reach_threshold in Hkept.
      assert (VectorSearchResult.score r' = 0) as Hzero'.
      { change (SearchSource.score (RAGEngine.toSearchSource r') = 0).
        rewrite <- Heq. exact Hzero. }
      rewrite Hzero' in Hkept. lra.
Qed.

Lemma C8_witness :
  exists r,
    fst (VectorStore.search (Example.servicesOver Example.answerWithoutDistances)
           Example.readyStore "VIP customers" Example.defaultSearch Example.freshWorld)
    = Ok [r]
    /\ VectorSearchResult.distance r = None
    /\ VectorSearchResult.score r = 0
    /\ (r ∉ RAGEngine.filterByMinScore (1 # 100) [r]).
Proof.
  eexists. split; [vm_compute; reflexivity|]. split; [reflexivity|].
  match goal with
  | |- VectorSearchResult.score ?r = 0 /\ _ =>
      assert (VectorStore.search (Example.servicesOver Example.answerWithoutDistances)
                Example.readyStore "VIP customers" Example.defaultSearch
                Example.freshWorld
              = (Ok [r],
                 snd (VectorStore.search
                        (Example.servicesOver Example.answerWithoutDistances)
                        Example.readyStore "VIP customers" Example.defaultSearch
                        Example.freshWorld))) as Hrun
        by (vm_compute; reflexivity);
      pose proof (C8_absent_distance_scores_zero _ _ _ _ _ _ [r] r Hrun
                    (list_elem_of_here _ _) eq_refl) as (Hzero & _ & Hdrop)
  end.
  split; [exact Hzero|].
  apply (Hdrop (1 # 100)). vm_compute. reflexivity.
Defined.

(** ** The answer of [query] *)


(** On a response without any content block the extraction reads [.type] of
    [undefined]: the call raises the error of the [catch] clause. *)
Lemma query_raises_on_empty_content :
  fst (RAGEngine.query Example.builtins
         (Example.servicesAnswering Example.emptyContent)
         Example.vipRequest Example.freshWorld)
  = Throw (Error "RAGクエリの実行に失敗しました").
Proof. vm_compute. reflexivity. Qed.



(** ** Adding documents to an uninitialized store *)

(** C9.  On a store whose collection is not initialized [addDocuments] raises
    the collection-not-initialized error whatever the documents, the empty
    list included, and calls no external service; on an initialized store the
    empty list is a no-op. *)
Theorem C9_uninitialized_add_raises
    (E : Externals) (self : VectorStore.t) (w : World) :
  (VectorStoreState.collection self = None ->
   forall documents,
     VectorStore.addDocuments E self documents w
     = (Throw VectorStore.notInitialized, w))
  /\ (forall coll,
        VectorStoreState.collection self = Some coll ->
        VectorStore.addDocuments E self [] w = (Ok tt, w)).
Proof.
  unfold VectorStore.addDocuments. split.
  - intros -> documents. reflexivity.
  - intros coll ->. reflexivity.
Qed.

Lemma C9_witness :
  VectorStore.addDocuments Example.ingestionServices VectorStore.new [] Example.freshWorld
  = (Throw
       (Error "コレクションが初期化されていません。initialize()を先に呼び出してください。"),
     Example.freshWorld).
Proof.
  exact (proj1 (C9_uninitialized_add_raises Example.ingestionServices VectorStore.new
                  Example.freshWorld) eq_refl []).
Defined.

(** ** Bulk ingestion *)

(** The loop of [ingestBulk] never raises: it adds to the running total the
    counts of the sources that succeed and leaves the world where the last
    source left it. *)
Lemma ingestBulkFrom_total (B : Builtins) (E : Externals)
    (requests : list DataIngestionRequest.t) (total : nat) (byType : gmap string nat)
    (w : World) :
  exists result,
    DataIngestionService.ingestBulkFrom B E requests total byType w
    = (Ok result, snd (Spec.sourceOutcomes B E requests w))
    /\ DataIngestionService.total result
       = (total + Spec.succeededTotal (fst (Spec.sourceOutcomes B E requests w)))%nat.
Proof.
  revert total byType w.
  induction requests as [|request rest IH]; intros total byType w.
  - eexists. split; [reflexivity|]. simpl. lia.
  - cbn [DataIngestionService.ingestBulkFrom Spec.sourceOutcomes].
    unfold_M.
    destruct (DataIngestionService.ingestFromSource B E request w) as [[count|e] w1].
    + destruct (IH (total + count)%nat
                   (<[DataIngestionRequest.dataType request :=
                        (default 0 (byType !! DataIngestionRequest.dataType request)
                         + count)%nat]> byType) w1) as (result & Hrun & Htotal).
      exists result.
      destruct (Spec.sourceOutcomes B E rest w1) as [others w2].
      split; [exact Hrun|]. rewrite Htotal. simpl. lia.
    + destruct (IH total byType w1) as (result & Hrun & Htotal).
      exists result.
      destruct (Spec.sourceOutcomes B E rest w1) as [others w2].
      split; [exact Hrun|]. rewrite Htotal. simpl. lia.
Qed.

Lemma sourceOutcomes_length (B : Builtins) (E : Externals)
    (requests : list DataIngestionRequest.t) (w : World) :
  length (fst (Spec.sourceOutcomes B E requests w)) = length requests.
Proof.
  revert w. induction requests as [|request rest IH]; intros w; [reflexivity|].
  cbn [Spec.sourceOutcomes].
  destruct (DataIngestionService.ingestFromSource B E request w) as [o w1].
  specialize (IH w1).
  destruct (Spec.sourceOutcomes B E rest w1) as [others w2].
  simpl in *. lia.
Qed.

(** C5.  [ingestBulk] completes normally on every list of requests: every
    source is run, one after the other, a source that fails is skipped, and
    the total is the sum of the counts of the sources that succeeded. *)
Theorem C5_ingestBulk_never_raises
    (B : Builtins) (E : Externals) (requests : list DataIngestionRequest.t) (w : World) :
  exists result,
    DataIngestionService.ingestBulk B E requests w
    = (Ok result, snd (Spec.sourceOutcomes B E requests w))
    /\ DataIngestionService.total result
       = Spec.succeededTotal (fst (Spec.sourceOutcomes B E requests w))
    /\ length (fst (Spec.sourceOutcomes B E requests w)) = length requests.
Proof.
  destruct (ingestBulkFrom_total B E requests 0 ∅ w) as (result & Hrun & Htotal).
  exists result. split; [exact Hrun|]. split; [exact Htotal|].
  apply sourceOutcomes_length.
Qed.

(** The scenario of the specification: of three sources the second fails, and
    the total is the sum of the other two. *)
Example ingestBulk_second_source_fails :
  fst (Spec.sourceOutcomes Example.builtins Example.ingestionServices
         Example.threeSources Example.freshWorld)
  = [Ok 2%nat; Throw (Error "データの取り込みに失敗しました"); Ok 1%nat]
  /\ fst (DataIngestionService.ingestBulk Example.builtins Example.ingestionServices
            Example.threeSources Example.freshWorld)
     = Ok {| DataIngestionService.total := 3;
             DataIngestionService.byType :=
               {[ "customer" := 2%nat; "work_history" := 1%nat ]} |}.
Proof. split; vm_compute; reflexivity. Qed.

(** ** The fallback of the normalizer *)

Lemma CRMData_toObject_nonempty (data : CRMData) :
  exists property others, CRMData_toObject data = property :: others.
Proof.
  destruct data; eexists; eexists; reflexivity.
Qed.

(** An object with at least one property, serialized with a two-blank gap at
    the top level: one member per line, each behind two blanks. *)
Lemma JSON_stringify_object_layout (B : Builtins) (property : string * JSValue)
    (others : list (string * JSValue)) :
  exists members,
    members <> []
    /\ JSON_stringify B (JSObject (property :: others)) 2
       = "{" +:+ nl +:+ "  " +:+ join ("," +:+ nl +:+ "  ") members +:+ nl +:+ "}".
Proof.
  eexists. split; [|reflexivity]. discriminate.
Qed.

(** C10.  With a [dataType] other than the three known tags [convertToText]
    does not raise: it returns [JSON.stringify(data, null, 2)], the record as
    a JSON object with one member per line behind two blanks. *)
Theorem C10_unknown_type_falls_back
    (B : Builtins) (data : CRMData) (dataType : string) :
  dataType <> "customer" -> dataType <> "quote" -> dataType <> "work_history" ->
  CRMConnector.convertToText B data dataType
  = Ok (JSON_stringify B (JSObject (CRMData_toObject data)) 2)
  /\ exists members,
      members <> []
      /\ JSON_stringify B (JSObject (CRMData_toObject data)) 2
         = "{" +:+ nl +:+ "  " +:+ join ("," +:+ nl +:+ "  ") members +:+ nl +:+ "}".
Proof.
  intros Hcustomer Hquote Hwork.
  apply String.eqb_neq in Hcustomer, Hquote, Hwork.
  split.
  - unfold CRMConnector.convertToText.
    rewrite Hcustomer, Hquote, Hwork. reflexivity.
  - destruct (CRMData_toObject_nonempty data) as (property & others & ->).
    apply JSON_stringify_object_layout.
Qed.

Lemma C10_witness :
  CRMConnector.convertToText Example.builtins (ACustomer Example.tanaka) "vip"
  = Ok (JSON_stringify Example.builtins
          (JSObject (CRMData_toObject (ACustomer Example.tanaka))) 2).
Proof.
  refine (proj1 (C10_unknown_type_falls_back Example.builtins
                   (ACustomer Example.tanaka) "vip" _ _ _)); discriminate.
Defined.

(** ** The lines of a rendered record *)

Lemma lines_nonempty (text : string) : Spec.lines text <> [].
Proof.
  destruct text as [|c rest]; cbn [Spec.lines]; [discriminate|].
  destruct (Ascii.eqb c (Ascii.ascii_of_nat 10)); [discriminate|].
  destruct (Spec.lines rest); discriminate.
Qed.

Lemma lines_append_newline (a b : string) :
  Spec.lines (a +:+ nl +:+ b) = Spec.lines a ++ Spec.lines b.
Proof.
  induction a as [|c a IH].
  - reflexivity.
  - change (String c a +:+ nl +:+ b) with (String c (a +:+ nl +:+ b)).
    cbn [Spec.lines]. rewrite IH.
    destruct (Ascii.eqb c (Ascii.ascii_of_nat 10)); [reflexivity|].
    pose proof (lines_nonempty a) as Hne.
    destruct (Spec.lines a) as [|line others]; [congruence|]. reflexivity.
Qed.

Lemma lines_join (templates : list string) :
  templates <> [] ->
  Spec.lines (join nl templates) = List.concat (map Spec.lines templates).
Proof.
  induction templates as [|t rest IH]; [congruence|]. intros _.
  destruct rest as [|t' rest].
  - cbn. rewrite app_nil_r. reflexivity.
  - change (join nl (t :: t' :: rest)) with (t +:+ nl +:+ join nl (t' :: rest)).
    rewrite lines_append_newline, IH by discriminate. reflexivity.
Qed.

(** A line of a template line is a line of the joined text. *)
Lemma lines_join_elem (templates : list string) (template line : string) :
  template ∈ templates ->
  line ∈ Spec.lines template ->
  line ∈ Spec.lines (join nl templates).
Proof.
  intros Htemplate Hline.
  rewrite lines_join by (intros ->; inversion Htemplate).
  apply list_elem_of_In, in_concat. exists (Spec.lines template). split.
  - apply in_map, list_elem_of_In, Htemplate.
  - apply list_elem_of_In, Hline.
Qed.

(** The text ends with the lines of its last template line. *)
Lemma lines_join_last (front : list string) (template : string) :
  last (Spec.lines (join nl (front ++ [template]))) = last (Spec.lines template).
Proof.
  rewrite lines_join by (destruct front; discriminate).
  rewrite map_app, concat_app. cbn [map List.concat]. rewrite app_nil_r.
  pose proof (lines_nonempty template) as Hne.
  destruct (Spec.lines template) as [|l ls] using rev_ind; [congruence|].
  rewrite app_assoc, !last_snoc. reflexivity.
Qed.

Lemma orElse_falsy (s : option string) (fallback : string) :
  truthyString s = false -> orElse s fallback = fallback.
Proof.
  destruct s as [s|]; cbn; [|reflexivity].
  destruct (String.eqb s ""); [reflexivity|discriminate].
Qed.

Lemma optionalLine_falsy (label : string) (s : option string) :
  truthyString s = false -> optionalLine label s = "".
Proof.
  destruct s as [s|]; cbn; [|reflexivity].
  destruct (String.eqb s ""); [reflexivity|discriminate].
Qed.

(** ** Absent optional fields *)

Lemma convertToText_known (B : Builtins) :
  (forall c, CRMConnector.convertToText B (ACustomer c) "customer"
             = Ok (CRMConnector.customerText B c))
  /\ (forall q, CRMConnector.convertToText B (AQuote q) "quote"
                = Ok (CRMConnector.quoteText B q))
  /\ (forall w, CRMConnector.convertToText B (AWorkHistory w) "work_history"
                = Ok (CRMConnector.workHistoryText B w)).
Proof. repeat split. Qed.

(** C7, as stated, fails: a customer without notes is rendered without any
    line for the notes field; no line starts with its label and the last line
    of the text is empty. *)
Lemma C7_counterexample :
  exists text,
    CRMConnector.convertToText Example.builtins (ACustomer Example.tanaka) "customer"
    = Ok text
    /\ Customer.notes Example.tanaka = None
    /\ ~ Spec.fieldLinePresent "メモ" text
    /\ last (Spec.lines text) = Some "".
Proof.
  eexists. split; [reflexivity|]. split; [reflexivity|]. split.
  - intros (line & Hin & Hprefix).
    apply list_elem_of_In in Hin. vm_compute in Hin.
    repeat (destruct Hin as [<-|Hin]; [vm_compute in Hprefix; discriminate Hprefix|]).
    exact Hin.
  - vm_compute. reflexivity.
Qed.

(** C7, amended.  In the customer rendering an absent (or empty) email or
    address is shown on its labelled line with the marker.  An absent (or
    empty) notes field, in all three renderings, and an absent parts list or
    rating of a work history leave their template line empty, without label or
    marker; with absent notes the text ends in an empty line.  The
    registration date of a customer and the expiry of a quote are not rendered
    at all. *)
Theorem C7_absent_fields_rendering (B : Builtins) :
  (forall c : Customer.t,
      (truthyString (Customer.email c) = false ->
       "メールアドレス: なし" ∈ Spec.lines (CRMConnector.customerText B c))
      /\ (truthyString (Customer.address c) = false ->
          "住所: なし" ∈ Spec.lines (CRMConnector.customerText B c))
      /\ (truthyString (Customer.notes c) = false ->
          CRMConnector.customerLines B c !! 8%nat = Some ""
          /\ last (Spec.lines (CRMConnector.customerText B c)) = Some "")
      /\ (forall registeredAt,
            CRMConnector.customerText B
              (Customer.mk (Customer.customerId c) (Customer.name c) (Customer.phone c)
                 (Customer.email c) (Customer.address c) (Customer.totalSales c)
                 (Customer.visitCount c) registeredAt (Customer.notes c))
            = CRMConnector.customerText B c))
  /\ (forall q : Quote.t,
        (truthyString (Quote.notes q) = false ->
         CRMConnector.quoteLines B q !! 9%nat = Some ""
         /\ last (Spec.lines (CRMConnector.quoteText B q)) = Some "")
        /\ (forall validUntil,
              CRMConnector.quoteText B
                (Quote.mk (Quote.quoteId q) (Quote.customerId q) (Quote.vehicleInfo q)
                   (Quote.items q) (Quote.totalAmount q) (Quote.status q)
                   (Quote.quoteDate q) validUntil (Quote.notes q))
              = CRMConnector.quoteText B q))
  /\ (forall w : WorkHistory.t,
        (WorkHistory.partsUsed w = None ->
         CRMConnector.workHistoryLines B w !! 8%nat = Some "")
        /\ (WorkHistory.rating w = None ->
            CRMConnector.workHistoryLines B w !! 12%nat = Some "")
        /\ (truthyString (WorkHistory.notes w) = false ->
            CRMConnector.workHistoryLines B w !! 13%nat = Some ""
            /\ last (Spec.lines (CRMConnector.workHistoryText B w)) = Some "")).
Proof.
  split; [|split].
  - intros c. split; [|split; [|split]].
    + intros Hemail. unfold CRMConnector.customerText.
      eapply lines_join_elem.
      * apply (list_elem_of_lookup_2 _ 4%nat). reflexivity.
      * rewrite (orElse_falsy _ _ Hemail). vm_compute. apply list_elem_of_here.
    + intros Haddress. unfold CRMConnector.customerText.
      eapply lines_join_elem.
      * apply (list_elem_of_lookup_2 _ 5%nat). reflexivity.
      * rewrite (orElse_falsy _ _ Haddress). vm_compute. apply list_elem_of_here.
    + intros Hnotes. unfold CRMConnector.customerText, CRMConnector.customerLines.
      rewrite (optionalLine_falsy _ _ Hnotes). split; [reflexivity|].
      match goal with
      | |- context [join nl (?a :: ?b :: ?c :: ?d :: ?e :: ?f :: ?g :: ?h :: ?last :: nil)] =>
          change (a :: b :: c :: d :: e :: f :: g :: h :: last :: nil)
            with ((a :: b :: c :: d :: e :: f :: g :: h :: nil) ++ [last])
      end.
      rewrite lines_join_last. reflexivity.
    + intros registeredAt. reflexivity.
  - intros q. split.
    + intros Hnotes. unfold CRMConnector.quoteText, CRMConnector.quoteLines.
      rewrite (optionalLine_falsy _ _ Hnotes). split; [reflexivity|].
      match goal with
      | |- context [join nl (?a :: ?b :: ?c :: ?d :: ?e :: ?f :: ?g :: ?h :: ?i
                              :: ?last :: nil)] =>
          change (a :: b :: c :: d :: e :: f :: g :: h :: i :: last :: nil)
            with ((a :: b :: c :: d :: e :: f :: g :: h :: i :: nil) ++ [last])
      end.
      rewrite lines_join_last. reflexivity.
    + intros validUntil. reflexivity.
  - intros w. split; [|split].
    + intros Hparts. unfold CRMConnector.workHistoryLines. rewrite Hparts. reflexivity.
    + intros Hrating. unfold CRMConnector.workHistoryLines. rewrite Hrating. reflexivity.
    + intros Hnotes. unfold CRMConnector.workHistoryText, CRMConnector.workHistoryLines.
      rewrite (optionalLine_falsy _ _ Hnotes). split; [reflexivity|].
      match goal with
      | |- context [join nl (?a :: ?b :: ?c :: ?d :: ?e :: ?f :: ?g :: ?h :: ?i :: ?j
                              :: ?k :: ?l :: ?m :: ?last :: nil)] =>
          change (a :: b :: c :: d :: e :: f :: g :: h :: i :: j :: k :: l :: m
                  :: last :: nil)
            with ((a :: b :: c :: d :: e :: f :: g :: h :: i :: j :: k :: l :: m :: nil)
                  ++ [last])
      end.
      rewrite lines_join_last. reflexivity.
Qed.

Lemma C7_witness :
  "メールアドレス: なし" ∈ Spec.lines (CRMConnector.customerText Example.builtins Example.tanaka)
  /\ "住所: なし" ∈ Spec.lines (CRMConnector.customerText Example.builtins Example.tanaka)
  /\ last (Spec.lines (CRMConnector.customerText Example.builtins Example.tanaka)) = Some "".
Proof.
  destruct (proj1 (C7_absent_fields_rendering Example.builtins) Example.tanaka)
    as (Hemail & Haddress & Hnotes & _).
  split; [exact (Hemail eq_refl)|]. split; [exact (Haddress eq_refl)|].
  exact (proj2 (Hnotes eq_refl)).
Defined.


(** * Further properties of the code *)

(** ** The shape of what [search] returns *)

(** X1.  The shaping loop of [search] returns one result per identifier of
    the first row of the index answer, in the same order, whatever the other
    columns hold; a missing documents column gives empty contents and a
    missing metadata column empty metadata. *)
Theorem formatResults_one_per_id (response : QueryResponse.t) :
  map (fun r => VectorDocument.id (VectorSearchResult.document r))
      (VectorStore.formatResults response)
  = default [] (head (QueryResponse.ids response))
  /\ (QueryResponse.documents response = None ->
      Forall (fun r => VectorDocument.content (VectorSearchResult.document r) = "")
             (VectorStore.formatResults response))
  /\ (QueryResponse.metadatas response = None ->
      Forall (fun r => VectorDocument.metadata (VectorSearchResult.document r) = [])
             (VectorStore.formatResults response)).
Proof.
  unfold VectorStore.formatResults.
  destruct (QueryResponse.ids response) as [|ids0 others].
  - repeat split; constructor.
  - change (default [] (head (ids0 :: others))) with ids0.
    split; [|split].
    + apply list_eq. intros i.
      rewrite list_lookup_fmap, list_lookup_imap.
      destruct (ids0 !! i); reflexivity.
    + intros Hnone. apply Forall_forall. intros r Hin.
      apply elem_of_lookup_imap_1 in Hin as (i & id & -> & _).
      rewrite Hnone. reflexivity.
    + intros Hnone. apply Forall_forall. intros r Hin.
      apply elem_of_lookup_imap_1 in Hin as (i & id & -> & _).
      rewrite Hnone. reflexivity.
Qed.

(** ** The calls [search] makes *)

Lemma generateEmbedding_run (E : Externals) (text : string) (w : World) :
  VectorStore.generateEmbedding E text w
  = (match openai_embeddings_create E (calls w) text with
     | Ok (embedding :: _) => Ok embedding
     | Ok [] | Throw _ => Throw (Error "エンベディングの生成に失敗しました")
     end,
     {| vectorStoreInstance := vectorStoreInstance w;
        calls := calls w ++ [EmbeddingsCreate text] |}).
Proof.
  unfold VectorStore.generateEmbedding. unfold_M.
  destruct (openai_embeddings_create E (calls w) text) as [[|embedding others]|e];
    reflexivity.
Qed.


(** ** The singleton store *)

Lemma initialize_run (E : Externals) (self : VectorStore.t) (w : World) :
  VectorStore.initialize E self w
  = (match chroma_getOrCreateCollection E (calls w) (COLLECTION_NAME E) with
     | Ok coll => Ok {| VectorStoreState.collection := Some coll |}
     | Throw _ => Throw (Error "ChromaDBコレクションの初期化に失敗しました")
     end,
     {| vectorStoreInstance := vectorStoreInstance w;
        calls := calls w ++ [GetOrCreateCollection (COLLECTION_NAME E)] |}).
Proof.
  unfold VectorStore.initialize. unfold_M.
  destruct (chroma_getOrCreateCollection E (calls w) (COLLECTION_NAME E)); reflexivity.
Qed.

Lemma getVectorStore_run (E : Externals) (w : World) :
  VectorStore.getVectorStore E w
  = match vectorStoreInstance w with
    | Some vs => (Ok vs, w)
    | None =>
        match chroma_getOrCreateCollection E (calls w) (COLLECTION_NAME E) with
        | Ok coll =>
            (Ok {| VectorStoreState.collection := Some coll |},
             {| vectorStoreInstance := Some {| VectorStoreState.collection := Some coll |};
                calls := calls w ++ [GetOrCreateCollection (COLLECTION_NAME E)] |})
        | Throw _ =>
            (Throw (Error "ChromaDBコレクションの初期化に失敗しました"),
             {| vectorStoreInstance := Some VectorStore.new;
                calls := calls w ++ [GetOrCreateCollection (COLLECTION_NAME E)] |})
        end
    end.
Proof.
  unfold VectorStore.getVectorStore, readInstance, writeInstance, mbind, M_bind, mret, M_ret.
  destruct (vectorStoreInstance w) as [vs|]; [destruct w; reflexivity|].
  rewrite initialize_run. cbn [calls vectorStoreInstance].
  destruct (chroma_getOrCreateCollection E (calls w) (COLLECTION_NAME E)); reflexivity.
Qed.

(** X3.  Once [getVectorStore] has returned a store, every later call returns
    that same store without calling any service: the world it leaves is a
    fixed point.  A store obtained from a process without singleton is
    initialized. *)
Theorem getVectorStore_cached (E : Externals) (w w1 : World) (vs : VectorStore.t) :
  VectorStore.getVectorStore E w = (Ok vs, w1) ->
  VectorStore.getVectorStore E w1 = (Ok vs, w1)
  /\ (vectorStoreInstance w = None -> VectorStoreState.collection vs <> None).
Proof.
  rewrite (getVectorStore_run E w).
  destruct (vectorStoreInstance w) as [vs0|] eqn:Hinstance.
  - intros [= <- <-]. rewrite getVectorStore_run, Hinstance.
    split; [reflexivity|discriminate].
  - destruct (chroma_getOrCreateCollection E (calls w) (COLLECTION_NAME E)) as [coll|e];
      [|discriminate].
    intros [= <- <-]. rewrite getVectorStore_run. split; [reflexivity|].
    intros _. discriminate.
Qed.

Lemma getVectorStore_cached_witness :
  exists vs w1,
    VectorStore.getVectorStore (Example.servicesOver Example.answerWithoutDistances)
      Example.freshWorld = (Ok vs, w1)
    /\ VectorStore.getVectorStore (Example.servicesOver Example.answerWithoutDistances) w1
       = (Ok vs, w1).
Proof.
  eexists. eexists.
  assert (VectorStore.getVectorStore (Example.servicesOver Example.answerWithoutDistances)
            Example.freshWorld
          = (Ok Example.readyStore,
             {| vectorStoreInstance := Some Example.readyStore;
                calls := [GetOrCreateCollection "bankin_crm_data"] |})) as Hrun
    by reflexivity.
  split; [exact Hrun|].
  exact (proj1 (getVectorStore_cached _ _ _ _ Hrun)).
Defined.



(** ** Writing documents *)




(** X6.  [addDocument] behaves as [addDocuments] on the one-element batch: it
    makes the same calls and leaves the same world, and it completes normally
    exactly when the batch does (only the message of the error differs). *)
Theorem addDocument_as_singleton_batch
    (E : Externals) (self : VectorStore.t) (document : VectorDocument.t) (w : World) :
  snd (VectorStore.addDocument E self document w)
  = snd (VectorStore.addDocuments E self [document] w)
  /\ (fst (VectorStore.addDocument E self document w) = Ok tt
      <-> fst (VectorStore.addDocuments E self [document] w) = Ok tt).
Proof.
  unfold VectorStore.addDocument, VectorStore.addDocuments.
  destruct (VectorStoreState.collection self) as [coll|]; [|split; reflexivity].
  change (Nat.eqb (length [document]) 0) with false. cbv iota.
  unfold tryCatch, mbind, M_bind. cbn [map Promise_all].
  rewrite generateEmbedding_run.
  destruct (openai_embeddings_create E (calls w) (VectorDocument.content document))
    as [[|embedding others]|e]; cbn [fst snd]; try (split; [reflexivity|]; split; discriminate).
  unfold await, throw. cbn [calls vectorStoreInstance map].
  destruct (collection_add E _ coll _) as [[]|e]; cbn [fst snd].
  - split; reflexivity.
  - split; [reflexivity|]. split; discriminate.
Qed.

(** ** Ingesting one source *)

Lemma mapThrowing_ok {A B} (f : A -> outcome B) (l : list A) (l' : list B) :
  mapThrowing f l = Ok l' ->
  length l' = length l
  /\ forall i a, l !! i = Some a -> exists b, f a = Ok b /\ l' !! i = Some b.
Proof.
  revert l'. induction l as [|a rest IH]; intros l'; cbn [mapThrowing].
  - intros [= <-]. split; [reflexivity|]. intros i a Hi. inversion Hi.
  - unfold andThen. destruct (f a) as [b|e] eqn:Hfa; [|discriminate].
    destruct (mapThrowing f rest) as [bs|e]; [|discriminate].
    intros [= <-]. destruct (IH bs eq_refl) as [Hlen Hlookup].
    split; [cbn; congruence|].
    intros [|i] a' Hi.
    + injection Hi as <-. exists b. split; [exact Hfa|reflexivity].
    + apply Hlookup. exact Hi.
Qed.

Lemma mapThrowing_throw {A B} (f : A -> outcome B) (l : list A) (a : A) (e : JsError) :
  a ∈ l -> f a = Throw e -> exists e', mapThrowing f l = Throw e'.
Proof.
  intros Hin Hfa. induction l as [|a' rest IH]; [inversion Hin|].
  cbn [mapThrowing]. unfold andThen.
  apply elem_of_cons in Hin as [<-|Hin].
  - rewrite Hfa. eexists. reflexivity.
  - destruct (f a') as [b|e1]; [|eexists; reflexivity].
    destruct (IH Hin) as [e' ->]. eexists. reflexivity.
Qed.

Lemma convertToText_ok_iff (B : Builtins) (item : CRMData) (dataType : string) :
  (exists text, CRMConnector.convertToText B item dataType = Ok text)
  <-> Spec.matchesType dataType item = true.
Proof.
  unfold CRMConnector.convertToText, Spec.matchesType.
  destruct (String.eqb dataType "customer");
    [|destruct (String.eqb dataType "quote");
      [|destruct (String.eqb dataType "work_history")]];
    destruct item; split;
    first [ intros _; reflexivity
          | intros _; eexists; reflexivity
          | intros [text [=]]
          | intros [=] ].
Qed.

Lemma toDocuments_ok (B : Builtins) (dataType : string) (data : list CRMData)
    (documents : list VectorDocument.t) :
  DataIngestionService.toDocuments B dataType data = Ok documents ->
  length documents = length data
  /\ forall i item,
      data !! i = Some item ->
      Spec.matchesType dataType item = true
      /\ exists content,
          CRMConnector.convertToText B item dataType = Ok content
          /\ documents !! i
             = Some {| VectorDocument.id :=
                         dataType +:+ "_" +:+ DataIngestionService.naturalKey B item i;
                       VectorDocument.content := content;
                       VectorDocument.metadata :=
                         ("type", JSString dataType) :: CRMData_toObject item;
                       VectorDocument.embedding := None |}.
Proof.
  unfold DataIngestionService.toDocuments. intros Hok.
  apply mapThrowing_ok in Hok as [Hlen Hlookup].
  split; [rewrite Hlen, length_imap; reflexivity|].
  intros i item Hi.
  destruct (Hlookup i (i, item)) as (doc & Hdoc & Hat).
  { rewrite list_lookup_imap, Hi. reflexivity. }
  cbv beta iota in Hdoc. unfold andThen in Hdoc.
  destruct (CRMConnector.convertToText B item dataType) as [content|e] eqn:Hconv;
    [|discriminate].
  injection Hdoc as <-. split.
  - apply (proj1 (convertToText_ok_iff B item dataType)). exists content. exact Hconv.
  - exists content. split; [reflexivity|exact Hat].
Qed.

Lemma toDocuments_throw (B : Builtins) (dataType : string) (data : list CRMData)
    (item : CRMData) :
  item ∈ data -> Spec.matchesType dataType item = false ->
  exists e, DataIngestionService.toDocuments B dataType data = Throw e.
Proof.
  intros Hin Hmismatch. apply list_elem_of_lookup_1 in Hin as [i Hi].
  destruct (CRMConnector.convertToText B item dataType) as [text|e] eqn:Hconv.
  - assert (Spec.matchesType dataType item = true)
      by (apply (proj1 (convertToText_ok_iff B item dataType)); exists text; exact Hconv).
    congruence.
  - unfold DataIngestionService.toDocuments.
    apply (mapThrowing_throw _ _ (i, item) e).
    + apply (list_elem_of_lookup_2 _ i). rewrite list_lookup_imap, Hi. reflexivity.
    + cbv beta iota. rewrite Hconv. reflexivity.
Qed.

(** How [ingestFromSource] runs, step by step. *)
Lemma ingestFromSource_run (B : Builtins) (E : Externals)
    (request : DataIngestionRequest.t) (w : World) :
  DataIngestionService.ingestFromSource B E request w
  = match CRMConnector.loadData E (DataIngestionRequest.source request) w with
    | (Throw _, w1) => (Throw (Error "データの取り込みに失敗しました"), w1)
    | (Ok data, w1) =>
        if Nat.eqb (length data) 0 then (Ok 0%nat, w1)
        else
          match DataIngestionService.toDocuments B
                  (DataIngestionRequest.dataType request) data with
          | Throw _ => (Throw (Error "データの取り込みに失敗しました"), w1)
          | Ok documents =>
              match VectorStore.getVectorStore E w1 with
              | (Throw _, w2) => (Throw (Error "データの取り込みに失敗しました"), w2)
              | (Ok vectorStore, w2) =>
                  match VectorStore.addDocuments E vectorStore documents w2 with
                  | (Throw _, w3) => (Throw (Error "データの取り込みに失敗しました"), w3)
                  | (Ok _, w3) => (Ok (length documents), w3)
                  end
              end
          end
    end.
Proof.
  unfold DataIngestionService.ingestFromSource. unfold_M.
  destruct (CRMConnector.loadData E _ w) as [[data|e] w1]; [|reflexivity].
  destruct (Nat.eqb (length data) 0); [reflexivity|].
  destruct (DataIngestionService.toDocuments B _ data) as [documents|e]; [|reflexivity].
  destruct (VectorStore.getVectorStore E w1) as [[vectorStore|e] w2]; [|reflexivity].
  destruct (VectorStore.addDocuments E vectorStore documents w2) as [[[]|e] w3];
    reflexivity.
Qed.

(** X7.  When [ingestFromSource] completes normally, its count is the number
    of records the source held, every one of them of the declared type; with
    no record it returns 0 right after loading, without obtaining the store. *)
Theorem ingestFromSource_counts_every_record
    (B : Builtins) (E : Externals) (request : DataIngestionRequest.t)
    (w w' : World) (count : nat) :
  DataIngestionService.ingestFromSource B E request w = (Ok count, w') ->
  exists data w1,
    CRMConnector.loadData E (DataIngestionRequest.source request) w = (Ok data, w1)
    /\ count = length data
    /\ Forall (fun item =>
                 Spec.matchesType (DataIngestionRequest.dataType request) item = true)
              data
    /\ (count = 0%nat -> w' = w1).
Proof.
  rewrite ingestFromSource_run.
  destruct (CRMConnector.loadData E _ w) as [[data|e] w1]; [|discriminate].
  destruct (Nat.eqb (length data) 0) eqn:Hempty.
  - intros [= <- <-]. apply Nat.eqb_eq in Hempty.
    exists data, w1. split; [reflexivity|]. split; [congruence|].
    split; [|reflexivity]. destruct data; [constructor|discriminate].
  - destruct (DataIngestionService.toDocuments B _ data) as [documents|e] eqn:Hdocs;
      [|discriminate].
    destruct (VectorStore.getVectorStore E w1) as [[vectorStore|e] w2]; [|discriminate].
    destruct (VectorStore.addDocuments E vectorStore documents w2) as [[[]|e] w3];
      [|discriminate].
    intros [= <- <-]. apply toDocuments_ok in Hdocs as [Hlen Hitems].
    exists data, w1. split; [reflexivity|]. split; [exact Hlen|]. split.
    + apply Forall_forall. intros item Hin.
      apply list_elem_of_lookup_1 in Hin as [i Hi]. apply (Hitems i item Hi).
    + intros Hzero. apply Nat.eqb_neq in Hempty. lia.
Qed.

(** X8.  A source that holds a record of another type than the declared one
    is turned down as a whole: [ingestFromSource] raises its error right after
    loading, and neither the embedding provider nor the index is called. *)
Theorem ingestFromSource_rejects_mixed_source
    (B : Builtins) (E : Externals) (request : DataIngestionRequest.t)
    (w w1 : World) (data : list CRMData) (item : CRMData) :
  CRMConnector.loadData E (DataIngestionRequest.source request) w = (Ok data, w1) ->
  item ∈ data ->
  Spec.matchesType (DataIngestionRequest.dataType request) item = false ->
  DataIngestionService.ingestFromSource B E request w
  = (Throw (Error "データの取り込みに失敗しました"), w1).
Proof.
  intros Hload Hin Hmismatch. rewrite ingestFromSource_run, Hload.
  destruct data as [|first rest]; [inversion Hin|].
  change (Nat.eqb (length (first :: rest)) 0) with false. cbv iota.
  destruct (toDocuments_throw B _ _ item Hin Hmismatch) as [e ->]. reflexivity.
Qed.

Lemma ingestFromSource_counts_witness :
  exists data w1,
    CRMConnector.loadData Example.ingestionServices
      (DataIngestionRequest.source (Example.jsonSource "customers.json" "customer"))
      Example.freshWorld = (Ok data, w1)
    /\ 2%nat = length data.
Proof.
  pose (run := DataIngestionService.ingestFromSource Example.builtins
                 Example.ingestionServices
                 (Example.jsonSource "customers.json" "customer") Example.freshWorld).
  assert (run = (Ok 2%nat, snd run)) as Hrun by (vm_compute; reflexivity).
  destruct (ingestFromSource_counts_every_record _ _ _ _ _ _ Hrun)
    as (data & w1 & Hload & Hcount & _).
  exists data, w1. split; [exact Hload|exact Hcount].
Defined.

Lemma ingestFromSource_rejects_witness :
  fst (DataIngestionService.ingestFromSource Example.builtins Example.ingestionServices
         (Example.jsonSource "customers.json" "quote") Example.freshWorld)
  = Throw (Error "データの取り込みに失敗しました")
  /\ calls (snd (DataIngestionService.ingestFromSource Example.builtins
                   Example.ingestionServices
                   (Example.jsonSource "customers.json" "quote") Example.freshWorld))
     = [ReadJSON "customers.json"].
Proof.
  pose (loaded := CRMConnector.loadData Example.ingestionServices
                    (DataIngestionRequest.source
                       (Example.jsonSource "customers.json" "quote"))
                    Example.freshWorld).
  assert (loaded = (Ok [ACustomer Example.tanaka; ACustomer Example.suzuki],
                    {| vectorStoreInstance := None;
                       calls := [ReadJSON "customers.json"] |})) as Hload
    by reflexivity.
  rewrite (ingestFromSource_rejects_mixed_source Example.builtins
             Example.ingestionServices (Example.jsonSource "customers.json" "quote")
             Example.freshWorld _ _ (ACustomer Example.tanaka) Hload
             (list_elem_of_here _ _) eq_refl).
  split; reflexivity.
Defined.

(** ** Sources that cannot be read *)

Lemma loadData_lacksLocation (E : Externals) (source : DataSource.t) (w : World) :
  Spec.lacksLocation source = true ->
  exists message, CRMConnector.loadData E source w = (Throw (Error message), w).
Proof.
  unfold Spec.lacksLocation, CRMConnector.loadData.
  destruct (DataSource.type source).
  - intros ->. eexists. reflexivity.
  - intros _. destruct (negb (truthyString (DataSource.path source)));
      eexists; reflexivity.
  - intros ->. eexists. reflexivity.
  - intros ->. eexists. reflexivity.
Qed.

(** X9.  A bulk ingestion whose sources all lack their location (a JSON or
    CSV source without path, an API source without endpoint) or are Excel
    sources completes normally with total 0 and an empty per-type table, and
    calls no service at all: nothing is read, embedded or written. *)
Theorem ingestBulk_unreadable_sources
    (B : Builtins) (E : Externals) (requests : list DataIngestionRequest.t) (w : World) :
  Forall (fun request =>
            Spec.lacksLocation (DataIngestionRequest.source request) = true) requests ->
  DataIngestionService.ingestBulk B E requests w
  = (Ok {| DataIngestionService.total := 0; DataIngestionService.byType := ∅ |}, w).
Proof.
  unfold DataIngestionService.ingestBulk.
  generalize 0%nat (∅ : gmap string nat). intros total byType Hall.
  induction Hall as [|request rest Hlacks _ IH]; [reflexivity|].
  cbn [DataIngestionService.ingestBulkFrom].
  unfold mbind at 1, M_bind at 1, tryCatch at 1.
  unfold mbind at 1, M_bind at 1.
  rewrite ingestFromSource_run.
  destruct (loadData_lacksLocation E _ w Hlacks) as [message ->].
  exact IH.
Qed.

Lemma ingestBulk_unreadable_witness :
  DataIngestionService.ingestBulk Example.builtins Example.ingestionServices
    [ {| DataIngestionRequest.source :=
           {| DataSource.type := excel;
              DataSource.path := Some "customers.xlsx";
              DataSource.apiEndpoint := None;
              DataSource.headers := None |};
         DataIngestionRequest.dataType := "customer" |};
      {| DataIngestionRequest.source :=
           {| DataSource.type := csv;
              DataSource.path := None;
              DataSource.apiEndpoint := None;
              DataSource.headers := None |};
         DataIngestionRequest.dataType := "quote" |} ]
    Example.freshWorld
  = (Ok {| DataIngestionService.total := 0; DataIngestionService.byType := ∅ |},
     Example.freshWorld).
Proof.
  apply ingestBulk_unreadable_sources.
  repeat constructor.
Defined.

(** ** Document identifiers *)

Lemma naturalKey_customerReference (B : Builtins) (item : CRMData) (index : nat) :
  Spec.customerReference item <> "" ->
  DataIngestionService.naturalKey B item index = Spec.customerReference item.
Proof.
  intros Hne. apply String.eqb_neq in Hne.
  destruct item; cbn [DataIngestionService.naturalKey Spec.customerReference orElse] in *;
    rewrite Hne; reflexivity.
Qed.

(** X10.  The identifier of an ingested document is built from the record's
    [customerId] whenever that is not empty, also for quotes and work
    history, whose own [quoteId] or [workId] then plays no part: two records
    of one source that refer to the same customer get the same identifier. *)
Theorem documents_keyed_by_customer
    (B : Builtins) (dataType : string) (data : list CRMData)
    (documents : list VectorDocument.t) (i j : nat) (item1 item2 : CRMData) :
  DataIngestionService.toDocuments B dataType data = Ok documents ->
  data !! i = Some item1 ->
  data !! j = Some item2 ->
  Spec.customerReference item1 = Spec.customerReference item2 ->
  Spec.customerReference item1 <> "" ->
  exists d1 d2,
    documents !! i = Some d1 /\ documents !! j = Some d2
    /\ VectorDocument.id d1 = dataType +:+ "_" +:+ Spec.customerReference item1
    /\ VectorDocument.id d2 = VectorDocument.id d1.
Proof.
  intros Hdocs Hi Hj Hsame Hne.
  apply toDocuments_ok in Hdocs as [_ Hitems].
  destruct (Hitems i item1 Hi) as (_ & content1 & _ & Hd1).
  destruct (Hitems j item2 Hj) as (_ & content2 & _ & Hd2).
  eexists. eexists. split; [exact Hd1|]. split; [exact Hd2|].
  cbn [VectorDocument.id].
  rewrite (naturalKey_customerReference B item1 i Hne).
  rewrite (naturalKey_customerReference B item2 j) by congruence.
  rewrite Hsame. split; reflexivity.
Qed.

Lemma documents_keyed_by_customer_witness :
  exists d1 d2,
    DataIngestionService.toDocuments Example.builtins "work_history"
      [AWorkHistory Example.bumperRepair; AWorkHistory Example.paintJob]
    = Ok [d1; d2]
    /\ VectorDocument.id d1 = "work_history_C1"
    /\ VectorDocument.id d2 = VectorDocument.id d1.
Proof.
  pose (converted := DataIngestionService.toDocuments Example.builtins "work_history"
                       [AWorkHistory Example.bumperRepair; AWorkHistory Example.paintJob]).
  destruct converted as [[|d1 [|d2 [|d3 rest]]]|e] eqn:Hconverted;
    try (vm_compute in Hconverted; discriminate Hconverted).
  destruct (documents_keyed_by_customer Example.builtins "work_history" _ _ 0 1
              (AWorkHistory Example.bumperRepair) (AWorkHistory Example.paintJob)
              Hconverted eq_refl eq_refl eq_refl ltac:(discriminate))
    as (d1' & d2' & [= <-] & [= <-] & Hid1 & Hid2).
  exists d1, d2. split; [exact Hconverted|]. split; [exact Hid1|exact Hid2].
Defined.

(** ** The per-type table of a bulk ingestion *)





(** ** What [query] reports *)

Lemma filterByMinScore_none (minScore : Q) (results : list VectorSearchResult.t) :
  (forall r, r ∈ results -> VectorSearchResult.score r < minScore) ->
  RAGEngine.filterByMinScore minScore results = [].
Proof.
  intros Hbelow. unfold RAGEngine.filterByMinScore.
  induction results as [|r rest IH]; [reflexivity|].
  cbn [List.filter].
  destruct (Qle_bool minScore (VectorSearchResult.score r)) eqn:Hle.
  - apply Qle_bool_iff in Hle. specialize (Hbelow r ltac:(left)). lra.
  - apply IH. intros r' Hin. apply Hbelow. right. exact Hin.
Qed.

(** X12.  When every retrieved result scores below the threshold, [query]
    sends the generation provider the fixed nothing-found context in place of
    any document, and a response, if one comes back, has no sources and
    confidence 0. *)
Theorem query_without_match
    (B : Builtins) (E : Externals) (req : RAGQuery.t) (w w1 w2 : World)
    (vs : VectorStore.t) (searchResults : list VectorSearchResult.t) :
  VectorStore.getVectorStore E w = (Ok vs, w1) ->
  VectorStore.search E vs (RAGQuery.query req)
    {| VectorSearchOptions.topK := Some (RAGEngine.topKOf req);
       VectorSearchOptions.filter := None |} w1
  = (Ok searchResults, w2) ->
  (forall r, r ∈ searchResults -> VectorSearchResult.score r < RAGEngine.minScoreOf req) ->
  calls (snd (RAGEngine.query B E req w))
  = calls w2
    ++ [ MessagesCreate
           (RAGEngine.generationParams "関連する情報が見つかりませんでした。"
              (RAGQuery.query req)) ]
  /\ forall resp,
      fst (RAGEngine.query B E req w) = Ok resp ->
      RAGResponse.sources resp = [] /\ RAGResponse.confidence resp = 0.
Proof.
  intros Hget Hsearch Hbelow.
  unfold RAGEngine.query. unfold_M. rewrite Hget, Hsearch.
  rewrite (filterByMinScore_none _ _ Hbelow).
  change (RAGEngine.buildContext B (map RAGEngine.toSearchSource []))
    with "関連する情報が見つかりませんでした。".
  destruct (anthropic_messages_create E (calls w2) _) as [message|e]; cbn [fst snd calls].
  - destruct (RAGEngine.extractAnswer message) as [answer|e]; cbn [fst snd calls].
    + split; [reflexivity|]. intros resp [= <-]. split; reflexivity.
    + split; [reflexivity|]. intros resp [=].
  - split; [reflexivity|]. intros resp [=].
Qed.

Lemma query_without_match_witness :
  exists resp,
    fst (RAGEngine.query Example.builtins
           (Example.servicesOver (Example.indexAnswer ["customer_C1"] [2 # 3]))
           {| RAGQuery.query := "VIP customers";
              RAGQuery.options :=
                Some {| RAGQuery.topK := None; RAGQuery.minScore := Some (99 # 100) |} |}
           Example.freshWorld) = Ok resp
    /\ RAGResponse.sources resp = [] /\ RAGResponse.confidence resp = 0.
Proof.
  pose (E := Example.servicesOver (Example.indexAnswer ["customer_C1"] [2 # 3])).
  pose (req := {| RAGQuery.query := "VIP customers";
                  RAGQuery.options :=
                    Some {| RAGQuery.topK := None;
                            RAGQuery.minScore := Some (99 # 100) |} |}).
  pose (opened := VectorStore.getVectorStore E Example.freshWorld).
  pose (searched :=
          VectorStore.search E Example.readyStore "VIP customers"
            {| VectorSearchOptions.topK := Some (RAGEngine.topKOf req);
               VectorSearchOptions.filter := None |} (snd opened)).
  assert (opened = (Ok Example.readyStore, snd opened)) as Hget
    by (vm_compute; reflexivity).
  assert (searched = (Ok Example.bestMatchSixTenths, snd searched)) as Hsearch
    by (vm_compute; reflexivity).
  assert (forall r, r ∈ Example.bestMatchSixTenths ->
                    VectorSearchResult.score r < RAGEngine.minScoreOf req) as Hbelow.
  { intros r Hin. apply elem_of_cons in Hin as [->|Hin]; [|inversion Hin].
    vm_compute. reflexivity. }
  destruct (query_without_match Example.builtins E req Example.freshWorld _ _ _ _
              Hget Hsearch Hbelow) as [_ Hresp].
  destruct (fst (RAGEngine.query Example.builtins E req Example.freshWorld))
    as [resp|e] eqn:Hrun; [|vm_compute in Hrun; discriminate Hrun].
  exists resp. split; [exact Hrun|]. exact (Hresp resp eq_refl).
Defined.





(** ** Conversational queries *)


(** X14.  With an empty history [conversationalQuery] is [query]: it makes
    the same calls with the same arguments, leaves the same world, and returns
    the same response whenever either of them returns one (on failure only the
    message of the error differs). *)
Theorem conversationalQuery_without_history
    (B : Builtins) (E : Externals) (query : string) (options : option RAGQuery.Options)
    (w : World) :
  let conversational :=
    RAGEngine.conversationalQuery B E
      {| ConversationalRAGQuery.query := query;
         ConversationalRAGQuery.options := options;
         ConversationalRAGQuery.history := [] |} w in
  let plain :=
    RAGEngine.query B E {| RAGQuery.query := query; RAGQuery.options := options |} w in
  snd conversational = snd plain
  /\ forall resp, fst conversational = Ok resp <-> fst plain = Ok resp.
Proof.
  cbn zeta.
  unfold RAGEngine.conversationalQuery, RAGEngine.query, RAGEngine.topKOf,
    RAGEngine.minScoreOf, RAGEngine.generationParams, RAGEngine.conversationMessages.
  cbn [ConversationalRAGQuery.query ConversationalRAGQuery.options
       ConversationalRAGQuery.history RAGQuery.query RAGQuery.options map app].
  generalize (default 5 (options ≫= RAGQuery.topK)).
  generalize (default (1 # 2) (options ≫= RAGQuery.minScore)).
  intros minScore topK. unfold_M.
  destruct (VectorStore.getVectorStore E w) as [[vs|e] w1];
    [|split; [reflexivity|intros resp; split; discriminate]].
  destruct (VectorStore.search E vs query _ w1) as [[searchResults|e] w2];
    [|split; [reflexivity|intros resp; split; discriminate]].
  destruct (anthropic_messages_create E (calls w2) _) as [message|e];
    [|split; [reflexivity|intros resp; split; discriminate]].
  destruct (RAGEngine.extractAnswer message) as [answer|e];
    [|split; [reflexivity|intros resp; split; discriminate]].
  split; [reflexivity|]. intros resp. reflexivity.
Qed.



(** ** The context handed to the generation provider *)



(** ** The HTTP handlers *)

(** [query] raises one error only, whatever went wrong inside. *)
Lemma query_single_error (B : Builtins) (E : Externals) (req : RAGQuery.t)
    (w w' : World) (e : JsError) :
  RAGEngine.query B E req w = (Throw e, w') ->
  e = Error "RAGクエリの実行に失敗しました".
Proof.
  unfold RAGEngine.query. unfold_M.
  destruct (VectorStore.getVectorStore E w) as [[vs|e0] w1]; [|congruence].
  destruct (VectorStore.search E vs _ _ w1) as [[searchResults|e0] w2]; [|congruence].
  destruct (anthropic_messages_create E (calls w2) _) as [message|e0]; [|congruence].
  destruct (RAGEngine.extractAnswer message) as [answer|e0]; congruence.
Qed.

(** X17.  The handler of [POST /api/query] always answers.  An empty query
    is answered 400 without calling any service; otherwise the answer is 200
    with the response of [query], or 500 with the one message of the engine,
    never with the message of the failure underneath. *)
Theorem postQuery_responses
    (B : Builtins) (E : Externals) (req : RAGQuery.t) (w : World) :
  (RAGQuery.query req = "" ->
   Server.postQuery B E req w
   = (Ok {| Server.status := 400;
            Server.body := Server.ErrorBody "クエリが指定されていません" |}, w))
  /\ (RAGQuery.query req <> "" ->
      snd (Server.postQuery B E req w) = snd (RAGEngine.query B E req w)
      /\ ((exists resp,
              fst (RAGEngine.query B E req w) = Ok resp
              /\ fst (Server.postQuery B E req w)
                 = Ok {| Server.status := 200; Server.body := Server.QueryBody resp |})
          \/ fst (Server.postQuery B E req w)
             = Ok {| Server.status := 500;
                     Server.body := Server.ErrorBody "RAGクエリの実行に失敗しました" |})).
Proof.
  unfold Server.postQuery, truthyString. split.
  - intros ->. reflexivity.
  - intros Hne. apply String.eqb_neq in Hne. rewrite Hne. cbn [negb].
    unfold tryCatch, mbind, M_bind, mret, M_ret.
    destruct (RAGEngine.query B E req w) as [[resp|e] w'] eqn:Hrun; cbn [fst snd].
    + split; [reflexivity|]. left. exists resp. split; reflexivity.
    + split; [reflexivity|]. right.
      rewrite (query_single_error B E req w w' e Hrun). reflexivity.
Qed.

Lemma postQuery_responses_witness :
  fst (Server.postQuery Example.builtins Example.servicesWithoutChroma
         Example.vipRequest Example.freshWorld)
  = Ok {| Server.status := 500;
          Server.body := Server.ErrorBody "RAGクエリの実行に失敗しました" |}.
Proof.
  destruct (proj2 (postQuery_responses Example.builtins Example.servicesWithoutChroma
                     Example.vipRequest Example.freshWorld) ltac:(discriminate))
    as [_ [(resp & Hok & _)|Hfail]].
  - vm_compute in Hok. discriminate Hok.
  - exact Hfail.
Defined.


(** ** The CSV reader *)

Lemma split_length (sep : Ascii.ascii) (text : string) :
  length (CRMConnector.split sep text) = S (Spec.occurrences sep text).
Proof.
  induction text as [|c rest IH]; [reflexivity|].
  cbn [CRMConnector.split Spec.occurrences].
  destruct (Ascii.eqb c sep).
  - cbn [length]. now rewrite IH.
  - destruct (CRMConnector.split sep rest); [discriminate IH | exact IH].
Qed.

Lemma split_without_separator (sep : Ascii.ascii) (cell : string) :
  Spec.occurrences sep cell = 0%nat -> CRMConnector.split sep cell = [cell].
Proof.
  induction cell as [|c rest IH]; [reflexivity|].
  cbn [CRMConnector.split Spec.occurrences].
  destruct (Ascii.eqb c sep); [discriminate|].
  intros H. now rewrite (IH H).
Qed.

Lemma split_append (sep : Ascii.ascii) (cell rest : string) :
  Spec.occurrences sep cell = 0%nat ->
  CRMConnector.split sep (cell +:+ String sep rest)
  = cell :: CRMConnector.split sep rest.
Proof.
  induction cell as [|c cell IH].
  - intros _. change ("" +:+ String sep rest) with (String sep rest).
    cbn [CRMConnector.split]. now rewrite Ascii.eqb_refl.
  - change (String c cell +:+ String sep rest)
      with (String c (cell +:+ String sep rest)).
    cbn [CRMConnector.split Spec.occurrences].
    destruct (Ascii.eqb c sep); [discriminate|].
    intros H. now rewrite (IH H).
Qed.

Lemma split_join (sep : Ascii.ascii) (cells : list string) :
  cells <> [] ->
  Forall (fun cell => Spec.occurrences sep cell = 0%nat) cells ->
  CRMConnector.split sep (join (String sep "") cells) = cells.
Proof.
  unfold join. intros Hne Hcells.
  induction Hcells as [|cell others Hcell Hothers IH]; [congruence|].
  destruct others as [|next others].
  - cbn. now apply split_without_separator.
  - change (String.concat (String sep "") (cell :: next :: others))
      with (cell +:+ String sep (String.concat (String sep "") (next :: others))).
    rewrite (split_append _ _ _ Hcell), IH; [reflexivity | discriminate].
Qed.

Lemma occurrences_append (c : Ascii.ascii) (a b : string) :
  Spec.occurrences c (a +:+ b) = (Spec.occurrences c a + Spec.occurrences c b)%nat.
Proof.
  induction a as [|c' a IH]; [reflexivity|].
  change (String c' a +:+ b) with (String c' (a +:+ b)).
  cbn [Spec.occurrences]. destruct (Ascii.eqb c' c); lia.
Qed.

Lemma occurrences_join (c : Ascii.ascii) (sep : string) (cells : list string) :
  Spec.occurrences c sep = 0%nat ->
  Forall (fun cell => Spec.occurrences c cell = 0%nat) cells ->
  Spec.occurrences c (join sep cells) = 0%nat.
Proof.
  unfold join. intros Hsep Hcells.
  induction Hcells as [|cell others Hcell Hothers IH]; [reflexivity|].
  destruct others as [|next others]; [exact Hcell|].
  change (String.concat sep (cell :: next :: others))
    with (cell +:+ sep +:+ String.concat sep (next :: others)).
  rewrite !occurrences_append, Hcell, Hsep, IH. reflexivity.
Qed.

Lemma fillRecord_keys (values headers : list string)
    (obj : gmap string (option string)) (index : nat) (key : string) :
  is_Some (CRMConnector.fillRecord values obj index headers !! key)
  <-> is_Some (obj !! key) \/ (key ∈ headers /\ key <> "__proto__").
Proof.
  revert obj index.
  induction headers as [|header rest IH]; intros obj index;
    cbn [CRMConnector.fillRecord].
  - split; [now left | intros [H|[H _]]; [exact H | inversion H]].
  - rewrite IH, elem_of_cons. unfold CRMConnector.setProperty.
    destruct (String.eqb header "__proto__") eqn:Hproto.
    + apply String.eqb_eq in Hproto. subst header. split.
      * intros [H|[H1 H2]]; [now left | right; split; [now right | exact H2]].
      * intros [H|[[H1|H1] H2]]; [now left | congruence | right; now split].
    + apply String.eqb_neq in Hproto.
      destruct (decide (key = header)) as [->|Hkey].
      * rewrite lookup_insert_eq. split; [|intros _; left; eauto].
        intros _. right. split; [now left | exact Hproto].
      * rewrite lookup_insert_ne by congruence. split.
        -- intros [H|[H1 H2]]; [now left | right; split; [now right | exact H2]].
        -- intros [H|[[H1|H1] H2]]; [now left | congruence | right; now split].
Qed.

Lemma fillRecord_table (values headers : list string)
    (obj : gmap string (option string)) (index : nat) :
  NoDup headers -> "__proto__" ∉ headers ->
  (forall header, header ∈ headers -> obj !! header = None) ->
  length (drop index values) = length headers ->
  CRMConnector.fillRecord values obj index headers
  = list_to_map (zip headers (map Some (drop index values))) ∪ obj.
Proof.
  revert obj index.
  induction headers as [|header rest IH]; intros obj index Hnodup Hproto Hfresh Hlen;
    cbn [CRMConnector.fillRecord].
  - cbn. now rewrite (left_id_L ∅ (∪)).
  - apply NoDup_cons in Hnodup as [Hnotin Hnodup].
    apply not_elem_of_cons in Hproto as [Hhead Hproto].
    destruct (values !! index) as [value|] eqn:Hvalue.
    2:{ apply lookup_ge_None in Hvalue. rewrite length_drop in Hlen.
        cbn in Hlen. lia. }
    rewrite (drop_S _ _ _ Hvalue) in Hlen |- *. cbn in Hlen.
    unfold CRMConnector.setProperty.
    destruct (String.eqb header "__proto__") eqn:Heq;
      [apply String.eqb_eq in Heq; congruence|].
    rewrite IH; [| assumption | assumption | | lia].
    + cbn [map zip zip_with list_to_map foldr]. cbn.
      rewrite <- insert_union_l, <- insert_union_r; [reflexivity|].
      apply not_elem_of_list_to_map_1.
      change (zip_with pair rest (map Some (drop (S index) values)))
        with (zip rest (map Some (drop (S index) values))).
      rewrite fst_zip; [exact Hnotin|].
      rewrite length_map. lia.
    + intros h Hin. rewrite lookup_insert_ne; [|intros ->; contradiction].
      apply Hfresh. now right.
Qed.

(** X19.  [readCSV] makes one record per line feed of the trimmed content,
    and every record has the same keys, whatever the number of cells of its
    line: the column names of the header line, [__proto__] excepted.  A short
    line leaves its last keys [undefined], the cells beyond the header of a
    long line are dropped. *)
Theorem parseCSV_records_share_header_keys (content : string) :
  length (CRMConnector.parseCSV content)
  = Spec.occurrences CRMConnector.newline (CRMConnector.JS_trim content)
  /\ (forall record, record ∈ CRMConnector.parseCSV content ->
      forall key, is_Some (record !! key)
                  <-> key ∈ Spec.headerCells content /\ key <> "__proto__").
Proof.
  unfold CRMConnector.parseCSV, Spec.headerCells.
  pose proof (split_length CRMConnector.newline (CRMConnector.JS_trim content)) as Hlen.
  destruct (CRMConnector.split CRMConnector.newline (CRMConnector.JS_trim content))
    as [|headerLine dataLines]; [discriminate Hlen|].
  cbn [length] in Hlen. cbn [head default]. split.
  - rewrite length_map. lia.
  - intros record Hin key.
    apply list_elem_of_In, in_map_iff in Hin as (line & <- & _).
    rewrite fillRecord_keys, lookup_empty. split.
    + intros [[? H]|H]; [discriminate H | exact H].
    + intros H. now right.
Qed.

(** X20.  Reading back a table: when the column names are distinct and none
    is [__proto__], every row has a cell for every column, no cell holds a
    comma or a line feed or has white space around it, and the file neither
    starts nor ends with white space, [readCSV] returns the rows in order,
    each as the object of its cells under the column names. *)
Theorem parseCSV_reads_back_table (headers : list string) (rows : list (list string)) :
  headers <> [] -> NoDup headers -> "__proto__" ∉ headers ->
  Forall Spec.plainCell headers ->
  Forall (fun row => length row = length headers /\ Forall Spec.plainCell row) rows ->
  CRMConnector.JS_trim (Spec.csvContent headers rows) = Spec.csvContent headers rows ->
  CRMConnector.parseCSV (Spec.csvContent headers rows)
  = map (Spec.tableRecord headers) rows.
Proof.
  intros Hne Hnodup Hproto Hheaders Hrows Htrim.
  assert (Hcells : forall cells, Forall Spec.plainCell cells ->
            Forall (fun cell => Spec.occurrences CRMConnector.comma cell = 0%nat) cells
            /\ Forall (fun cell => Spec.occurrences CRMConnector.newline cell = 0%nat) cells
            /\ map CRMConnector.JS_trim cells = cells).
  { intros cells H. induction H as [|cell others (Hc & Hn & Ht) _ (IHc & IHn & IHt)].
    - repeat split; constructor.
    - repeat split; [now constructor | now constructor |].
      cbn [map]. now rewrite Ht, IHt. }
  assert (Hline : forall cells, Forall Spec.plainCell cells ->
            Spec.occurrences CRMConnector.newline (Spec.csvLine cells) = 0%nat).
  { intros cells H. apply occurrences_join; [reflexivity|].
    apply (Hcells cells H). }
  unfold CRMConnector.parseCSV. rewrite Htrim. unfold Spec.csvContent.
  rewrite split_join; [|discriminate|].
  2:{ constructor; [now apply Hline|].
      apply Forall_forall. intros line Hin.
      apply list_elem_of_In, in_map_iff in Hin as (row & <- & Hin).
      apply Hline. apply list_elem_of_In in Hin.
      exact (proj2 (proj1 (Forall_forall _ _) Hrows row Hin)). }
  cbn [map]. destruct (Hcells headers Hheaders) as (Hcomma & _ & Hfixed).
  unfold Spec.csvLine at 1. rewrite (split_join _ _ Hne Hcomma), Hfixed.
  rewrite map_map. apply map_ext_in. intros row Hin.
  apply list_elem_of_In in Hin.
  destruct (proj1 (Forall_forall _ _) Hrows row Hin) as [Hwidth Hplain].
  destruct (Hcells row Hplain) as (Hrcomma & _ & Hrfixed).
  unfold Spec.csvLine. rewrite split_join; [| |exact Hrcomma].
  2:{ intros ->. destruct headers; [congruence | discriminate Hwidth]. }
  rewrite Hrfixed, fillRecord_table; [| assumption | assumption | | exact Hwidth].
  - cbn [drop]. unfold Spec.tableRecord. now rewrite (right_id_L ∅ (∪)).
  - intros. apply lookup_empty.
Qed.

Ltac not_listed :=
  let H := fresh in
  intros H; repeat (apply elem_of_cons in H as [H|H]; [discriminate H|]);
  inversion H.

Lemma parseCSV_reads_back_table_witness :
  CRMConnector.parseCSV
    (Spec.csvContent ["customerId"; "name"; "phone"]
       [["C1"; "田中 太郎"; "090-1111-2222"]; ["C2"; "鈴木"; ""]])
  = map (Spec.tableRecord ["customerId"; "name"; "phone"])
        [["C1"; "田中 太郎"; "090-1111-2222"]; ["C2"; "鈴木"; ""]].
Proof.
  apply parseCSV_reads_back_table.
  - discriminate.
  - repeat (apply NoDup_cons; split; [not_listed|]). apply NoDup_nil_2.
  - not_listed.
  - repeat constructor.
  - repeat constructor.
  - vm_compute. reflexivity.
Defined.



